(** * fluxpy.legacy.transform: a shallow embedding and its specification

    The module [fluxpy/legacy/transform.py] loads a matrix of surface fluxes
    (two coordinate columns followed by one column per 3-hourly time step),
    labels the columns, indexes the rows by coordinate pair and re-emits the
    table as CSV, point JSON or GeoJSON.

    The embedding follows the Python text function by function.  What the
    module takes from its libraries (the calendar arithmetic of [datetime] and
    [dateutil.relativedelta], the frame operations of [pandas], the containers
    of [h5py] and [scipy.io]) is written out here as far as the module's own
    code exercises it. *)

From Stdlib Require Import ZArith Lia Ascii PrimFloat.
From stdpp Require Import base option list strings gmap.

(** ** Exceptions and the two effect layers *)

(** The exception classes that the module can raise or let through. *)
Inductive exn : Type :=
  | IOError
  | OSError
  | KeyError
  | TypeError
  | ValueError
  | OverflowError.

Global Instance exn_eq_dec : EqDecision exn.
Proof. solve_decision. Defined.

(** A computation that either raises or returns. *)
Definition result (A : Type) : Type := exn + A.

Definition raise {A} (e : exn) : result A := inl e.

Global Instance result_ret : MRet result := fun A x => inr x.
Global Instance result_bind : MBind result := fun A B f m =>
  match m with
  | inl e => inl e
  | inr x => f x
  end.
Global Instance result_fmap : FMap result := fun A B f m =>
  match m with
  | inl e => inl e
  | inr x => inr (f x)
  end.

(** [mapM] for [result]: the first exception wins, as in a Python loop or
    comprehension. *)
Fixpoint result_mapM {A B} (f : A → result B) (l : list A) : result (list B) :=
  match l with
  | [] => inr []
  | x :: l' =>
      match f x with
      | inl e => inl e
      | inr y =>
          match result_mapM f l' with
          | inl e => inl e
          | inr ys => inr (y :: ys)
          end
      end
  end.

(** ** Python string methods used by the module *)

Module PyStr.

(** [c in s] for a single character. *)
Fixpoint contains (c : ascii) (s : string) : bool :=
  match s with
  | EmptyString => false
  | String c' s' => Ascii.eqb c' c || contains c s'
  end.

(** [s.split(sep)[0]]: the text before the first occurrence of a
    one-character separator, the whole string when there is none. *)
Fixpoint split_head (sep : ascii) (s : string) : string :=
  match s with
  | EmptyString => EmptyString
  | String c s' =>
      if Ascii.eqb c sep then EmptyString else String c (split_head sep s')
  end.

(** [s.lstrip(chars)], [s.rstrip(chars)], [s.strip(chars)]. *)
Fixpoint lstrip (chars : string) (s : string) : string :=
  match s with
  | EmptyString => EmptyString
  | String c s' => if contains c chars then lstrip chars s' else s
  end.

Definition rstrip (chars : string) (s : string) : string :=
  String.rev (lstrip chars (String.rev s)).

Definition strip (chars : string) (s : string) : string :=
  rstrip chars (lstrip chars s).

(** [s.startswith(c)] and [s.endswith(c)] for a single character. *)
Definition startswith (c : ascii) (s : string) : bool :=
  match s with
  | String c' _ => Ascii.eqb c' c
  | EmptyString => false
  end.

Definition endswith (c : ascii) (s : string) : bool :=
  startswith c (String.rev s).

(** The text after the last occurrence of [sep] (the whole string when
    there is none). *)
Fixpoint after_last_go (sep : ascii) (s acc : string) : string :=
  match s with
  | EmptyString => acc
  | String c s' =>
      if Ascii.eqb c sep then after_last_go sep s' s'
      else after_last_go sep s' acc
  end.

Definition after_last (sep : ascii) (s : string) : string :=
  after_last_go sep s s.

(** The text after the first occurrence of [sep] (empty when there is
    none). *)
Fixpoint drop_through (sep : ascii) (s : string) : string :=
  match s with
  | EmptyString => EmptyString
  | String c s' => if Ascii.eqb c sep then s' else drop_through sep s'
  end.

(** The line feed, ["\n"]. *)
Definition newline : string := String (ascii_of_nat 10) EmptyString.

(** [posixpath.join(a, b)]. *)
Definition path_join (a b : string) : string :=
  if startswith "/" b then b
  else if bool_decide (a = "") || endswith "/" a then a +:+ b
  else a +:+ "/" +:+ b.

End PyStr.

(** ** The calendar: [datetime], [timedelta], [relativedelta]

    The proleptic Gregorian calendar of Python's [datetime] module, with the
    names of its reference implementation. *)

Module Datetime.

Local Open Scope Z_scope.

Definition MINYEAR : Z := 1.
Definition MAXYEAR : Z := 9999.
(** [date.max.toordinal()], the ordinal of 9999-12-31. *)
Definition MAXORDINAL : Z := 3652059.

Definition is_leap (year : Z) : bool :=
  (year mod 4 =? 0) && (negb (year mod 100 =? 0) || (year mod 400 =? 0)).

Definition days_before_year (year : Z) : Z :=
  let y := year - 1 in
  y * 365 + y / 4 - y / 100 + y / 400.

Definition DAYS_IN_MONTH (month : Z) : Z :=
  match month with
  | 1 => 31 | 2 => 28 | 3 => 31 | 4 => 30 | 5 => 31 | 6 => 30
  | 7 => 31 | 8 => 31 | 9 => 30 | 10 => 31 | 11 => 30 | 12 => 31
  | _ => -1
  end.

Definition DAYS_BEFORE_MONTH (month : Z) : Z :=
  match month with
  | 1 => 0 | 2 => 31 | 3 => 59 | 4 => 90 | 5 => 120 | 6 => 151
  | 7 => 181 | 8 => 212 | 9 => 243 | 10 => 273 | 11 => 304 | 12 => 334
  | _ => -1
  end.

Definition days_in_month (year month : Z) : Z :=
  if (month =? 2) && is_leap year then 29 else DAYS_IN_MONTH month.

Definition days_before_month (year month : Z) : Z :=
  DAYS_BEFORE_MONTH month + (if (month >? 2) && is_leap year then 1 else 0).

Definition ymd2ord (year month day : Z) : Z :=
  days_before_year year + days_before_month year month + day.

Definition DI400Y : Z := 146097.
Definition DI100Y : Z := 36524.
Definition DI4Y : Z := 1461.

(** The tail of [_ord2ymd]: month and day from the zero-based day of the
    year [n], by an estimate of the month that is at most one too large. *)
Definition month_day (leapyear : bool) (n : Z) : Z * Z :=
  let month := Z.shiftr (n + 50) 5 in
  let preceding :=
    DAYS_BEFORE_MONTH month + (if (month >? 2) && leapyear then 1 else 0) in
  if preceding >? n then
    let month := month - 1 in
    let preceding :=
      preceding
      - (DAYS_IN_MONTH month + (if (month =? 2) && leapyear then 1 else 0)) in
    (month, n - preceding + 1)
  else (month, n - preceding + 1).

Definition ord2ymd (n : Z) : Z * Z * Z :=
  let n := n - 1 in
  let n400 := n / DI400Y in
  let n := n mod DI400Y in
  let year := n400 * 400 + 1 in
  let n100 := n / DI100Y in
  let n := n mod DI100Y in
  let n4 := n / DI4Y in
  let n := n mod DI4Y in
  let n1 := n / 365 in
  let n := n mod 365 in
  let year := year + n100 * 100 + n4 * 4 + n1 in
  if (n1 =? 4) || (n100 =? 4) then (year - 1, 12, 31)
  else
    let leapyear := (n1 =? 3) && (negb (n4 =? 24) || (n100 =? 3)) in
    let '(month, day) := month_day leapyear n in
    (year, month, day).

(** A naive [datetime.datetime] value. *)
Record datetime : Type := mk_datetime {
  year : Z;
  month : Z;
  day : Z;
  hour : Z;
  minute : Z;
  second : Z;
  microsecond : Z
}.

(** The checks of the [datetime] constructor: every value of the class
    passes them. *)
Definition check_fields (dt : datetime) : bool :=
  (MINYEAR <=? year dt) && (year dt <=? MAXYEAR)
  && (1 <=? month dt) && (month dt <=? 12)
  && (1 <=? day dt) && (day dt <=? days_in_month (year dt) (month dt))
  && (0 <=? hour dt) && (hour dt <=? 23)
  && (0 <=? minute dt) && (minute dt <=? 59)
  && (0 <=? second dt) && (second dt <=? 59)
  && (0 <=? microsecond dt) && (microsecond dt <=? 999999).

Definition valid (dt : datetime) : Prop := check_fields dt = true.

Definition toordinal (dt : datetime) : Z :=
  ymd2ord (year dt) (month dt) (day dt).

(** A [datetime.timedelta] is a whole number of microseconds; its
    normalised fields [days], [seconds] and [microseconds] are the
    quotients below.  The constructor refuses more than 999999999 days in
    either direction. *)
Record timedelta : Type := mk_timedelta { total_us : Z }.

Definition US_PER_SECOND : Z := 1000000.
Definition US_PER_DAY : Z := 86400 * US_PER_SECOND.

Definition td_days (td : timedelta) : Z := total_us td / US_PER_DAY.
Definition td_seconds (td : timedelta) : Z :=
  (total_us td mod US_PER_DAY) / US_PER_SECOND.
Definition td_microseconds (td : timedelta) : Z :=
  total_us td mod US_PER_SECOND.

Definition timedelta_of_us (us : Z) : result timedelta :=
  if (-999999999 <=? us / US_PER_DAY) && (us / US_PER_DAY <=? 999999999)
  then inr (mk_timedelta us)
  else raise OverflowError.

(** [timedelta(days, hours=.., minutes=.., seconds=.., microseconds=..)]. *)
Definition timedelta_new (days hours minutes seconds microseconds : Z)
  : result timedelta :=
  timedelta_of_us
    ((((days * 24 + hours) * 60 + minutes) * 60 + seconds) * US_PER_SECOND
     + microseconds).

Definition timedelta_add (a b : timedelta) : result timedelta :=
  timedelta_of_us (total_us a + total_us b).

(** [datetime.__add__(self, other)]. *)
Definition add (self : datetime) (other : timedelta) : result datetime :=
  delta ← timedelta_new (toordinal self) (hour self) (minute self)
                        (second self) (microsecond self);
  delta ← timedelta_add delta other;
  let hour := td_seconds delta / 3600 in
  let rem := td_seconds delta mod 3600 in
  let minute := rem / 60 in
  let second := rem mod 60 in
  if (0 <? td_days delta) && (td_days delta <=? MAXORDINAL) then
    let '(y, m, d) := ord2ymd (td_days delta) in
    mret (mk_datetime y m d hour minute second (td_microseconds delta))
  else raise OverflowError.




(** [dateutil.relativedelta.relativedelta(hours=h)]: of the relative
    fields only [days] and [hours] can be non-zero, after the constructor
    has carried whole days out of the hours ([_fix]). *)
Record relativedelta : Type := mk_relativedelta {
  rd_days : Z;
  rd_hours : Z
}.

Definition relativedelta_hours (hours : Z) : relativedelta :=
  if Z.abs hours >? 23 then
    let s := Z.sgn hours in
    mk_relativedelta ((hours * s / 24) * s) ((hours * s mod 24) * s)
  else mk_relativedelta 0 hours.

(** [dt + rd] ([relativedelta.__radd__]): with no year, month or absolute
    field set, the replacement of year, month and day leaves [dt] as it is
    and the relative days and hours are added as a [timedelta]. *)
Definition add_relativedelta (dt : datetime) (rd : relativedelta)
  : result datetime :=
  td ← timedelta_new (rd_days rd) (rd_hours rd) 0 0 0;
  add dt td.

(** The microseconds from the start of ordinal day 0 to [dt]: the value
    of the [delta] that [__add__] builds from [self]. *)
Definition us_of (dt : datetime) : Z :=
  (toordinal dt * 86400 + hour dt * 3600 + minute dt * 60 + second dt)
    * US_PER_SECOND
  + microsecond dt.

(** A number of hours in microseconds. *)
Definition hours_us (h : Z) : Z := h * 3600 * US_PER_SECOND.

(** *** [str(dt)]

    [isoformat(sep=' ')]: ["%04d-%02d-%02d %02d:%02d:%02d"], followed by
    [".%06d"] when the microsecond is not zero. *)

Definition digit_char (d : Z) : ascii :=
  ascii_of_nat (48 + Z.to_nat d).

(** The [w] low decimal digits of [n], most significant first. *)
Fixpoint fixed_digits (w : nat) (n : Z) : string :=
  match w with
  | O => EmptyString
  | S w' =>
      String (digit_char ((n / 10 ^ Z.of_nat w') mod 10)) (fixed_digits w' n)
  end.

(** The decimal digits of [n >= 0] without padding; [fuel] bounds their
    number. *)
Fixpoint decimal_go (fuel : nat) (n : Z) (acc : string) : string :=
  match fuel with
  | O => acc
  | S fuel' =>
      let acc' := String (digit_char (n mod 10)) acc in
      if n / 10 =? 0 then acc' else decimal_go fuel' (n / 10) acc'
  end.

Definition decimal (n : Z) : string :=
  decimal_go (S (Z.to_nat (Z.log2 n))) n EmptyString.

(** ["%0wd" % n]. *)
Definition pad0 (w : nat) (n : Z) : string :=
  if n <? 10 ^ Z.of_nat w then fixed_digits w n else decimal n.

Definition fmt_0d (w : nat) (n : Z) : string :=
  if n <? 0 then String "-" (pad0 (Nat.pred w) (- n)) else pad0 w n.

Definition str (dt : datetime) : string :=
  fmt_0d 4 (year dt) +:+ "-" +:+ fmt_0d 2 (month dt) +:+ "-"
  +:+ fmt_0d 2 (day dt) +:+ " "
  +:+ fmt_0d 2 (hour dt) +:+ ":" +:+ fmt_0d 2 (minute dt) +:+ ":"
  +:+ fmt_0d 2 (second dt)
  +:+ (if microsecond dt =? 0 then "" else "." +:+ fmt_0d 6 (microsecond dt)).

(** *** Reading a label back

    The inverse of [str] that the specification calls [parse]: the fields
    at their fixed positions, the separators checked, an optional
    six-digit fraction, and the constructor's checks on the result. *)

Definition digit_value (c : ascii) : option Z :=
  let n := Z.of_nat (nat_of_ascii c) in
  if (48 <=? n) && (n <=? 57) then Some (n - 48) else None.

Fixpoint take_digits (w : nat) (acc : Z) (s : string) : option (Z * string) :=
  match w with
  | O => Some (acc, s)
  | S w' =>
      match s with
      | EmptyString => None
      | String c s' =>
          d ← digit_value c;
          take_digits w' (acc * 10 + d) s'
      end
  end.

Definition expect (c : ascii) (s : string) : option string :=
  match s with
  | String c' s' => if Ascii.eqb c' c then Some s' else None
  | EmptyString => None
  end.

Definition parse_fraction (s : string) : option Z :=
  match s with
  | EmptyString => Some 0
  | String c s' =>
      if Ascii.eqb c "." then
        '(us, rest) ← take_digits 6 0 s';
        match rest with
        | EmptyString => Some us
        | _ => None
        end
      else None
  end.

Definition parse (s : string) : option datetime :=
  '(y, s) ← take_digits 4 0 s;
  s ← expect "-" s;
  '(m, s) ← take_digits 2 0 s;
  s ← expect "-" s;
  '(d, s) ← take_digits 2 0 s;
  s ← expect " " s;
  '(hh, s) ← take_digits 2 0 s;
  s ← expect ":" s;
  '(mm, s) ← take_digits 2 0 s;
  s ← expect ":" s;
  '(ss, s) ← take_digits 2 0 s;
  us ← parse_fraction s;
  let dt := mk_datetime y m d hh mm ss us in
  if check_fields dt then Some dt else None.

End Datetime.

(** ** Arrays, frames and what [pandas] does with them *)

Module Pandas.

(** A two-dimensional [numpy] array: [shape = (length rows, shape1)].  The
    second dimension is a field of its own, since an array with no row
    still has a column count. *)
Record ndarray (V : Type) : Type := mk_ndarray {
  shape1 : nat;
  arr_rows : list (list V)
}.
Arguments mk_ndarray {V} _ _.
Arguments shape1 {V} _.
Arguments arr_rows {V} _.

Definition shape0 {V} (a : ndarray V) : nat := length (arr_rows a).

Definition ndarray_wf {V} (a : ndarray V) : Prop :=
  Forall (λ row, length row = shape1 a) (arr_rows a).

(** A [DataFrame]: row labels, column labels and the rows of values. *)
Record DataFrame (I C V : Type) : Type := mk_frame {
  index : list I;
  columns : list C;
  values : list (list V)
}.
Arguments mk_frame {I C V} _ _ _.
Arguments index {I C V} _.
Arguments columns {I C V} _.
Arguments values {I C V} _.

(** One row per row label, one cell per column label in every row. *)
Definition frame_wf {I C V} (df : DataFrame I C V) : Prop :=
  length (values df) = length (index df)
  ∧ Forall (λ row, length row = length (columns df)) (values df).

Section Frames.
Context {V : Type}.

(** [pd.DataFrame(a)]: default integer labels on both axes. *)
Definition DataFrame_of_array (a : ndarray V) : DataFrame nat nat V :=
  mk_frame (seq 0 (shape0 a)) (seq 0 (shape1 a)) (arr_rows a).

(** [pd.DataFrame(a, columns=cols)]: refused when the number of labels is
    not the number of columns. *)
Definition DataFrame_with_columns (a : ndarray V) (cols : list string)
  : result (DataFrame nat string V) :=
  if bool_decide (length cols = shape1 a)
  then inr (mk_frame (seq 0 (shape0 a)) cols (arr_rows a))
  else raise ValueError.

(** The position of a column label. *)
Definition get_loc (c : string) (cols : list string) : result nat :=
  match list_find (λ c', c' = c) cols with
  | Some (i, _) => inr i
  | None => raise KeyError
  end.

Definition take_positions (ps : list nat) (row : list V) : list V :=
  omap (λ p, row !! p) ps.

(** [df.ix[:, cols]] for a list of column labels. *)
Definition ix_columns {I} (cols : list string) (df : DataFrame I string V)
  : result (DataFrame I string V) :=
  ps ← result_mapM (λ c, get_loc c (columns df)) cols;
  mret (mk_frame (index df) cols (take_positions ps <$> values df)).

Definition row_key (i j : nat) (row : list V) : option (V * V) :=
  x ← row !! i; y ← row !! j; Some (x, y).

Definition drop_labels (k1 k2 : string) (cols : list string) : list string :=
  filter (λ c, c ≠ k1 ∧ c ≠ k2) cols.

Definition drop_cells (k1 k2 : string) (cols : list string) (row : list V)
  : list V :=
  (filter (λ cv, cv.1 ≠ k1 ∧ cv.1 ≠ k2) (zip cols row)).*2.

(** [df.set_index([k1, k2])]: the two columns become the row labels (a
    pair per row) and leave the table. *)
Definition set_index {I} (k1 k2 : string) (df : DataFrame I string V)
  : result (DataFrame (V * V) string V) :=
  i ← get_loc k1 (columns df);
  j ← get_loc k2 (columns df);
  mret (mk_frame (omap (row_key i j) (values df))
                 (drop_labels k1 k2 (columns df))
                 (drop_cells k1 k2 (columns df) <$> values df)).

(** Column [j] of a list of rows. *)
Definition column (j : nat) (rows : list (list V)) : list V :=
  omap (λ row, row !! j) rows.

(** [df.T]. *)
Definition T {I C} (df : DataFrame I C V) : DataFrame C I V :=
  mk_frame (columns df) (index df)
           ((λ j, column j (values df)) <$> seq 0 (length (columns df))).

(** [df.iterrows()]: each row label with its row as a series, the list
    of its (column label, value) pairs; [series.iterkv()] walks them. *)
Definition iterrows {I C} (df : DataFrame I C V) : list (I * list (C * V)) :=
  zip (index df) ((λ row, zip (columns df) row) <$> values df).

Definition iterkv {C} (series : list (C * V)) : list (C * V) := series.

End Frames.

(** *** Delimited text

    A CSV file as its grid of cells; how a number or a label is spelt is
    left to the cell. *)
Inductive cell (V : Type) : Type :=
  | CellBlank
  | CellInt (n : nat)
  | CellStr (s : string)
  | CellKey (k : V * V)
  | CellValue (v : V).
Arguments CellBlank {V}.
Arguments CellInt {V} _.
Arguments CellStr {V} _.
Arguments CellKey {V} _.
Arguments CellValue {V} _.

(** The label types that occur on an axis of a frame. *)
Class Label (V L : Type) : Type := label_cell : L → cell V.
Global Instance Label_nat {V} : Label V nat := CellInt.
Global Instance Label_string {V} : Label V string := CellStr.
Global Instance Label_key {V} : Label V (V * V) := CellKey.

(** [df.to_csv(.., index=True)]: a header row (an empty cell over the row
    labels, then the column labels, a pair label in one cell) and one row
    per row label. *)
Definition csv_rows {I C V} `{!Label V I, !Label V C} (df : DataFrame I C V)
  : list (list (cell V)) :=
  (CellBlank :: (label_cell <$> columns df))
  :: zip_with (λ i row, label_cell i :: (CellValue <$> row))
              (index df) (values df).

End Pandas.

(** ** JSON documents, as [json.dump] writes Python lists, tuples, dicts,
    strings and floats *)

#[local] Unset Elimination Schemes.
Inductive json (V : Type) : Type :=
  | JStr (s : string)
  | JNum (v : V)
  | JArr (items : list (json V))
  | JObj (fields : list (string * json V)).
#[local] Set Elimination Schemes.
Arguments JStr {V} _.
Arguments JNum {V} _.
Arguments JArr {V} _.
Arguments JObj {V} _.

(** ** Files: what the module reads and what it writes *)

Section World.
Context {V : Type}.

(** A container file: its named variables. *)
Definition container : Type := gmap string (Pandas.ndarray V).

(** The file system as the module reads it. *)
Record Env : Type := mk_env {
  os_listdir : string → result (list string);
  h5py_File : string → result container;
  scipy_loadmat : string → result container
}.

Inductive content : Type :=
  | CsvFile (rows : list (list (Pandas.cell V)))
  | JsonFile (doc : json V).

(** What the module has written so far: the diagnostic stream and the
    files, latest last. *)
Record Out : Type := mk_out {
  stderr : list string;
  files : list (string * content)
}.

(** A computation that writes and may raise. *)
Definition IO (A : Type) : Type := Out → Out * result A.

Definition io_ret {A} (x : A) : IO A := λ o, (o, inr x).
Definition io_bind {A B} (m : IO A) (f : A → IO B) : IO B := λ o,
  match m o with
  | (o', inl e) => (o', inl e)
  | (o', inr x) => f x o'
  end.
Definition io_raise {A} (e : exn) : IO A := λ o, (o, inl e).
Definition io_lift {A} (r : result A) : IO A := λ o, (o, r).

Definition stderr_write (msg : string) : IO unit := λ o,
  (mk_out (stderr o ++ [msg]) (files o), inr ()).
Definition write_file (filename : string) (c : content) : IO unit := λ o,
  (mk_out (stderr o) (files o ++ [(filename, c)]), inr ()).

End World.

Arguments Env : clear implicits.
Arguments content : clear implicits.
Arguments Out : clear implicits.
Arguments IO : clear implicits.
Arguments container : clear implicits.

Notation "x ←io m ; k" := (io_bind m (λ x, k))
  (at level 20, m at level 100, k at level 200, only parsing).
Notation "m ;;io k" := (io_bind m (λ _, k))
  (at level 100, k at level 200, right associativity, only parsing).

(** ** The module [fluxpy.legacy.transform] *)

Section Transform.
Context {V : Type}.
Variable env : Env V.

Import Pandas.

(** The name of the variable when the caller gives none (lines 28 and 54):
    [name.split('.')[0].strip('_- 0123456789')]. *)
Definition default_var_name (name : string) : string :=
  PyStr.strip "_- 0123456789" (PyStr.split_head "." name).

(** [datetime.datetime(2003, 12, 22, 3, 0, 0)] (lines 57 and 85). *)
Definition default_dt : Datetime.datetime :=
  Datetime.mk_datetime 2003 12 22 3 0 0 0.

(** [range(n)]. *)
Definition range (n : Z) : list Z := Z.of_nat <$> seq 0 (Z.to_nat n).

(** [l[0:stop]]. *)
Definition slice_to {A} (stop : Z) (l : list A) : list A :=
  let n := Z.of_nat (length l) in
  let stop := if (stop <? 0)%Z then Z.max 0 (stop + n) else Z.min stop n in
  take (Z.to_nat stop) l.

(** The column headers (lines 60-62 and 88-90, the same text in both
    loaders), from the second dimension of the matrix and the epoch. *)
Definition column_headers (shape1 : nat) (dt : Datetime.datetime)
  : result (list string) :=
  let intervals := (Z.of_nat shape1 - 2)%Z in
  let cols := ["lng"; "lat"] in
  stamps ← result_mapM
    (λ j, Datetime.str <$>
            Datetime.add_relativedelta dt (Datetime.relativedelta_hours (3 * j)))
    (range intervals);
  mret (cols ++ stamps).

(** The last time step of a matrix with [C] columns, [dt] plus
    [3 * (C - 3)] hours, is a datetime (it does not pass the year 9999). *)
Definition last_step_representable (dt : Datetime.datetime) (C : nat) : Prop :=
  (2 < C)%nat →
  ∃ t, Datetime.add_relativedelta dt
         (Datetime.relativedelta_hours (3 * (Z.of_nat C - 3))) = inr t.

(** Lines 67-72 and 95-100: the optional cut to [limit] time steps, then
    the coordinate columns become the index. *)
Definition limit_and_index (limit : option Z) (cols : list string)
    (df : DataFrame nat string V) : result (DataFrame (V * V) string V) :=
  df ← match limit with
       | Some limit =>
           let cols := slice_to (limit + 2) cols in
           ix_columns cols df
       | None => mret df
       end;
  set_index "lng" "lat" df.

Definition getitem (f : container V) (var_name : string)
  : result (ndarray V) :=
  match f !! var_name with
  | Some a => inr a
  | None => raise KeyError
  end.

Definition hdf5_to_dataframe (path : string) (var_name : option string)
    (limit : option Z) (dt : option Datetime.datetime)
  : result (DataFrame (V * V) string V) :=
  f ← h5py_File env path;
  let var_name :=
    match var_name with
    | None => default_var_name path
    | Some v => v
    end in
  let dt := default default_dt dt in
  a ← getitem f var_name;
  cols ← column_headers (shape1 a) dt;
  df ← DataFrame_with_columns a cols;
  limit_and_index limit cols df.

Definition mat_to_dataframe (path : string) (var_name : string)
    (limit : option Z) (dt : option Datetime.datetime)
  : result (DataFrame (V * V) string V) :=
  mat ← scipy_loadmat env path;
  let dt := default default_dt dt in
  a ← getitem mat var_name;
  cols ← column_headers (shape1 a) dt;
  df ← DataFrame_with_columns a cols;
  limit_and_index limit cols df.

(** [df.to_csv(filename)], the method of the frame. *)
Definition DataFrame_to_csv {I C} `{!Label V I, !Label V C}
    (df : DataFrame I C V) (filename : string) : IO V unit :=
  write_file filename (CsvFile (csv_rows df)).

(** Lines 22-24: with a pattern, a file name that it does not match is
    passed over.  The pattern comes compiled, as its matcher. *)
Definition skipped (regex : option (string → bool)) (filename : string)
  : bool :=
  match regex with
  | Some matches => negb (matches filename)
  | None => false
  end.

(** One turn of the loop of [bulk_hdf5_to_csv] (lines 22-40); the value is
    [var_name] as the turn leaves it. *)
Definition bulk_step (path : string) (regex : option (string → bool))
    (var_name : option string) (filename : string) : IO V (option string) :=
  if skipped regex filename then io_ret var_name
  else
    let var_name :=
      match var_name with
      | None => default_var_name filename
      | Some v => v
      end in
    match h5py_File env (PyStr.path_join path filename) with
    | inl IOError =>
        stderr_write ("IOError encountered for " +:+ path +:+ PyStr.newline) ;;io
        io_ret (Some var_name)
    | inl e => io_raise e
    | inr f =>
        match f !! var_name with
        | None => io_raise TypeError
        | Some a =>
            let df := DataFrame_of_array a in
            DataFrame_to_csv df
              (PyStr.path_join path (PyStr.split_head "." filename +:+ ".csv")) ;;io
            io_ret (Some var_name)
        end
    end.

Fixpoint bulk_loop (path : string) (regex : option (string → bool))
    (var_name : option string) (ls : list string) : IO V (option string) :=
  match ls with
  | [] => io_ret var_name
  | filename :: ls' =>
      var_name ←io bulk_step path regex var_name filename;
      bulk_loop path regex var_name ls'
  end.

Definition bulk_hdf5_to_csv (path : string) (var_name : option string)
    (regex : option (string → bool)) : IO V unit :=
  ls ←io io_lift (os_listdir env path);
  bulk_loop path regex var_name ls ;;io
  io_ret ().

(** [to_csv]: the transpose of the frame, written by its method. *)
Definition to_csv (dataframe : DataFrame (V * V) string V) (filename : string)
  : IO V unit :=
  DataFrame_to_csv (T dataframe) filename.

(** A coordinate pair as [json.dump] writes a tuple. *)
Definition json_pair (k : V * V) : json V := JArr [JNum k.1; JNum k.2].

Definition to_json (dataframe : DataFrame (V * V) string V) (filename : string)
  : IO V unit :=
  let collection :=
    (λ '(timestamp, series),
       let features :=
         [ JArr ((λ kv, JObj [("coordinates", json_pair kv.1);
                              ("flux", JNum kv.2)]) <$> iterkv series) ] in
       JObj [("timestamp", JStr timestamp); ("features", JArr features)])
    <$> iterrows (T dataframe) in
  write_file filename (JsonFile (JArr collection)).

Definition to_geojson (dataframe : DataFrame (V * V) string V)
    (filename : string) : IO V unit :=
  let features :=
    (λ '(timestamp, series),
       JObj [("type", JStr "FeatureCollection");
             ("properties", JObj [("timestamp", JStr timestamp)]);
             ("features",
              JArr ((λ kv, JObj [("type", JStr "Point");
                                 ("coordinates", json_pair kv.1);
                                 ("properties", JObj [("flux", JNum kv.2)])])
                    <$> iterkv series))])
    <$> iterrows (T dataframe) in
  let template :=
    JObj [("type", JStr "FeatureCollection"); ("features", JArr features)] in
  write_file filename (JsonFile template).

End Transform.

(** ** Vocabulary of the specification *)

(** The variable name as the specification words it: the directory is
    stripped, then the extension, then digits, underscores, hyphens and
    spaces at both ends. *)
Definition spec_var_name (path : string) : string :=
  let filename := PyStr.after_last "/" path in
  let stem :=
    if PyStr.contains "." filename
    then String.rev (PyStr.drop_through "." (String.rev filename))
    else filename in
  PyStr.strip "_- 0123456789" stem.

(** The record of one grid cell in the point JSON, and its Point in the
    GeoJSON. *)
Definition point_record {V} (key : V * V) (flux : V) : json V :=
  JObj [("coordinates", JArr [JNum key.1; JNum key.2]); ("flux", JNum flux)].

Definition point_feature {V} (key : V * V) (flux : V) : json V :=
  JObj [("type", JStr "Point");
        ("coordinates", JArr [JNum key.1; JNum key.2]);
        ("properties", JObj [("flux", JNum flux)])].

(** The first file name of a listing that the pattern lets through. *)
Fixpoint first_selected (regex : option (string → bool)) (ls : list string)
  : option string :=
  match ls with
  | [] => None
  | filename :: ls' =>
      if skipped regex filename then first_selected regex ls' else Some filename
  end.


Definition month_day_ok (leapyear : bool) (n : Z) : bool :=
  let '(m, d) := Datetime.month_day leapyear n in
  ((1 <=? m) && (m <=? 12) && (1 <=? d)
   && (d <=? Datetime.DAYS_IN_MONTH m + (if (m =? 2) && leapyear then 1 else 0))
   && (Datetime.DAYS_BEFORE_MONTH m + (if (m >? 2) && leapyear then 1 else 0) + d
       =? n + 1))%Z.


(** ** A small world for the examples

    One container, [flux.h5] (also readable as [flux.mat]), whose variable
    [flux] is the one-row matrix of the specification's example, and a
    directory [runs] with a file that is no container, a container that
    cannot be opened, a container without the variable and a good one. *)

Definition ex_matrix : Pandas.ndarray float :=
  Pandas.mk_ndarray 5
    [[(-166.5)%float; 65.5%float; 1.0%float; 2.0%float; 3.0%float]].

Definition ex_container : container float := {[ "flux" := ex_matrix ]}.
Definition ex_other : container float := {[ "other" := ex_matrix ]}.

Definition ex_env : Env float :=
  mk_env
    (λ p, if bool_decide (p = "runs")
          then inr ["notes.txt"; "flux1.mat"; "other2.mat"; "flux3.mat"]
          else raise OSError)
    (λ p, if bool_decide (p = "flux.h5") then inr ex_container
          else if bool_decide (p = "runs/flux1.mat") then raise IOError
          else if bool_decide (p = "runs/other2.mat") then inr ex_other
          else if bool_decide (p = "runs/flux3.mat") then inr ex_container
          else raise IOError)
    (λ p, if bool_decide (p = "flux.mat") then inr ex_container
          else raise IOError).

(** A pattern that lets the [.mat] names through. *)
Definition ex_regex (filename : string) : bool :=
  bool_decide (PyStr.after_last "." filename = "mat").

Definition ex_frame : Pandas.DataFrame (float * float) string float :=
  Pandas.mk_frame
    [((-166.5)%float, 65.5%float); ((-165.5)%float, 65.5%float)]
    ["2003-12-22 03:00:00"; "2003-12-22 06:00:00"; "2003-12-22 09:00:00"]
    [[1.0%float; 2.0%float; 3.0%float]; [4.0%float; 5.0%float; 6.0%float]].

Definition ex_out : Out float := mk_out [] [].

(** ** Further vocabulary, for the properties beyond the claims *)

(** Every character of [s] is one of [chars]. *)
Fixpoint all_of (chars s : string) : bool :=
  match s with
  | EmptyString => true
  | String c s' => PyStr.contains c chars && all_of chars s'
  end.

(** A string that is empty or starts outside [chars]. *)
Definition head_outside (chars s : string) : Prop :=
  match s with
  | EmptyString => True
  | String c _ => PyStr.contains c chars = false
  end.

(** The number of elements of [l[0:stop]] for a list of [len] elements. *)
Definition slice_len (stop : Z) (len : nat) : nat :=
  Z.to_nat (if (stop <? 0)%Z then Z.max 0 (stop + Z.of_nat len)
            else Z.min stop (Z.of_nat len)).

(** The file system with every listing cut down to the names that a
    matcher lets through. *)
Definition with_filtered_listing {V} (env : Env V) (matches : string → bool)
  : Env V :=
  mk_env (λ p, filter (λ fn, matches fn = true) <$> os_listdir env p)
         (h5py_File env) (scipy_loadmat env).

(** A file that the batch gets past: its container cannot be opened
    ([IOError]), or it opens and holds the variable. *)
Definition passable {V} (env : Env V) (path v filename : string) : Prop :=
  h5py_File env (PyStr.path_join path filename) = inl IOError
  ∨ ∃ f a, h5py_File env (PyStr.path_join path filename) = inr f
           ∧ f !! v = Some a.

(** The diagnostic line for a file that cannot be opened, if it is one. *)
Definition skip_line {V} (env : Env V) (path filename : string)
  : option string :=
  match h5py_File env (PyStr.path_join path filename) with
  | inl IOError => Some ("IOError encountered for " +:+ path +:+ PyStr.newline)
  | _ => None
  end.

(** The CSV file for a file that opens and holds the variable, if it is
    one. *)
Definition csv_output {V} (env : Env V) (path v filename : string)
  : option (string * content V) :=
  match h5py_File env (PyStr.path_join path filename) with
  | inr f =>
      (λ a, (PyStr.path_join path (PyStr.split_head "." filename +:+ ".csv"),
             CsvFile (Pandas.csv_rows (Pandas.DataFrame_of_array a))))
        <$> f !! v
  | inl _ => None
  end.

(** The default file names of the exporters (lines 112, 119 and 142): the
    two JSON exporters share theirs. *)
Definition to_csv_default : string := "casagfed_output_dataframe.csv".
Definition to_json_default : string := "casagfed_output_dataframe.json".
Definition to_geojson_default : string := "casagfed_output_dataframe.json".

(** What a file holds after the writes so far: what was written to it
    last. *)
Fixpoint last_written {V} (name : string) (written : list (string * content V))
  : option (content V) :=
  match written with
  | [] => None
  | (n, c) :: rest =>
      match last_written name rest with
      | Some c' => Some c'
      | None => if decide (n = name) then Some c else None
      end
  end.

(** A second directory for the examples, [batch]: a file that is no
    container, a container that cannot be opened and a good one; and a
    matrix of two grid cells and four time steps. *)
Definition ex_env_batch : Env float :=
  mk_env
    (λ p, if bool_decide (p = "batch")
          then inr ["readme.txt"; "flux1.mat"; "flux2.mat"]
          else raise OSError)
    (λ p, if bool_decide (p = "batch/flux2.mat") then inr ex_container
          else raise IOError)
    (λ p, raise IOError).

Definition ex_matrix6 : Pandas.ndarray float :=
  Pandas.mk_ndarray 6
    [[(-166.5)%float; 65.5%float; 1.0%float; 2.0%float; 3.0%float; 4.0%float];
     [(-165.5)%float; 65.5%float; 5.0%float; 6.0%float; 7.0%float; 8.0%float]].

Definition ex_env6 : Env float :=
  mk_env (λ _, raise OSError)
         (λ p, if bool_decide (p = "grid.h5")
               then inr {[ "grid" := ex_matrix6 ]} else raise IOError)
         (λ p, raise IOError).

(** A table of one grid cell and one time step, unlike [ex_frame]. *)
Definition ex_frame_one : Pandas.DataFrame (float * float) string float :=
  Pandas.mk_frame [(10.5%float, 20.5%float)] ["2004-01-01 00:00:00"]
    [[9.0%float]].

(** * Properties *)

(** ** The calendar *)

Section CalendarFacts.
Import Datetime.
Local Open Scope Z_scope.

(** Quotient and remainder from the two bounds on the dividend. *)
Lemma div_eq (a b q : Z) : 0 < b → b * q ≤ a < b * q + b → a / b = q.
Proof. intros Hb H. symmetry. apply (Z.div_unique a b q (a - b * q)); lia. Qed.

Lemma mod_eq (a b q : Z) : 0 < b → b * q ≤ a < b * q + b → a mod b = a - b * q.
Proof. intros Hb H. symmetry. apply (Z.mod_unique a b q (a - b * q)); lia. Qed.

Lemma div_mod_pos (a b : Z) :
  0 < b → a = b * (a / b) + a mod b ∧ 0 ≤ a mod b < b.
Proof. intros Hb. split; [apply Z.div_mod; lia | by apply Z.mod_pos_bound]. Qed.

(** [month_day] is right on every day of a year but the 366th, which
    [ord2ymd] takes out beforehand. *)
Lemma month_day_table (leapyear : bool) :
  forallb (month_day_ok leapyear) (Z.of_nat <$> seq 0 365) = true.
Proof. destruct leapyear; vm_compute; reflexivity. Qed.

Lemma month_day_spec (leapyear : bool) (n : Z) :
  0 ≤ n < 365 →
  ∃ m d, month_day leapyear n = (m, d)
    ∧ 1 ≤ m ≤ 12 ∧ 1 ≤ d
    ∧ d ≤ DAYS_IN_MONTH m + (if (m =? 2) && leapyear then 1 else 0)
    ∧ DAYS_BEFORE_MONTH m + (if (m >? 2) && leapyear then 1 else 0) + d = n + 1.
Proof.
  intros Hn.
  pose proof (month_day_table leapyear) as Htab.
  rewrite forallb_forall in Htab.
  specialize (Htab n). unfold month_day_ok in Htab.
  destruct (month_day leapyear n) as [m d].
  exists m, d. split; [done|].
  assert (In n (Z.of_nat <$> seq 0 365)) as Hin.
  { apply list_elem_of_In, list_elem_of_fmap. exists (Z.to_nat n).
    split; [lia|]. apply elem_of_seq. lia. }
  specialize (Htab Hin).
  repeat (apply andb_prop in Htab as [Htab ?]). lia.
Qed.

(** The year of an ordinal, from the four quotients of [ord2ymd]. *)
Lemma days_before_year_cycles (q400 n100 n4 n1 : Z) :
  0 ≤ n100 ≤ 3 → 0 ≤ n4 ≤ 24 → 0 ≤ n1 ≤ 3 →
  days_before_year (q400 * 400 + 1 + n100 * 100 + n4 * 4 + n1)
    = q400 * 146097 + n100 * 36524 + n4 * 1461 + n1 * 365.
Proof.
  intros H100 H4 H1. unfold days_before_year.
  rewrite (div_eq _ 4 (q400 * 100 + n100 * 25 + n4)) by lia.
  rewrite (div_eq _ 100 (q400 * 4 + n100)) by lia.
  rewrite (div_eq _ 400 q400) by lia.
  lia.
Qed.

(** The leap-year flag that [ord2ymd] computes from its quotients is
    [is_leap] of the year. *)
Lemma is_leap_cycles (q400 n100 n4 n1 : Z) :
  0 ≤ n100 ≤ 3 → 0 ≤ n4 ≤ 24 → 0 ≤ n1 ≤ 3 →
  is_leap (q400 * 400 + 1 + n100 * 100 + n4 * 4 + n1)
    = (n1 =? 3) && (negb (n4 =? 24) || (n100 =? 3)).
Proof.
  intros H100 H4 H1. unfold is_leap.
  repeat match goal with
         | |- context [?a =? ?b] => destruct (Z.eqb_spec a b)
         end; simpl; try reflexivity; exfalso;
    Z.div_mod_to_equations; lia.
Qed.

(** [ord2ymd] inverts [ymd2ord], returns a date that the constructor
    accepts and stays within year 9999 up to [MAXORDINAL]. *)
Lemma ord2ymd_spec (n : Z) :
  1 ≤ n →
  ∃ y m d, ord2ymd n = (y, m, d)
    ∧ ymd2ord y m d = n
    ∧ 1 ≤ y ∧ 1 ≤ m ≤ 12 ∧ 1 ≤ d ≤ days_in_month y m
    ∧ (n ≤ MAXORDINAL → y ≤ MAXYEAR).
Proof.
  intros Hn. unfold ord2ymd, DI400Y, DI100Y, DI4Y, MAXORDINAL, MAXYEAR. cbv zeta.
  destruct (div_mod_pos (n - 1) 146097 ltac:(lia)) as [E400 B400].
  remember ((n - 1) / 146097) as q400 eqn:Hq. clear Hq.
  remember ((n - 1) mod 146097) as r400 eqn:Hr. clear Hr.
  destruct (div_mod_pos r400 36524 ltac:(lia)) as [E100 B100].
  remember (r400 / 36524) as n100 eqn:Hq. clear Hq.
  remember (r400 mod 36524) as r100 eqn:Hr. clear Hr.
  destruct (div_mod_pos r100 1461 ltac:(lia)) as [E4 B4].
  remember (r100 / 1461) as n4 eqn:Hq. clear Hq.
  remember (r100 mod 1461) as r4 eqn:Hr. clear Hr.
  destruct (div_mod_pos r4 365 ltac:(lia)) as [E1 B1].
  remember (r4 / 365) as n1 eqn:Hq. clear Hq.
  remember (r4 mod 365) as r1 eqn:Hr. clear Hr.
  assert (0 ≤ q400) by lia.
  destruct (Z.eqb_spec n1 4) as [H14|H14]; [|destruct (Z.eqb_spec n100 4) as [H1004|H1004]];
    cbn [orb].
  - (* the last day of a leap year that ends a 4-year cycle *)
    assert (0 ≤ n100 ≤ 3 ∧ 0 ≤ n4 ≤ 23) as [? ?] by lia.
    eexists _, 12, 31. split; [reflexivity|].
    replace (q400 * 400 + 1 + n100 * 100 + n4 * 4 + n1 - 1)
      with (q400 * 400 + 1 + n100 * 100 + n4 * 4 + 3) by lia.
    unfold ymd2ord, days_before_month, days_in_month.
    rewrite days_before_year_cycles, is_leap_cycles by lia.
    destruct (Z.eqb_spec n4 24); [lia|]. simpl. lia.
  - (* the last day of a 400-year cycle *)
    assert (n4 = 0 ∧ n1 = 0) as [-> ->] by lia.
    eexists _, 12, 31. split; [reflexivity|].
    replace (q400 * 400 + 1 + n100 * 100 + 0 * 4 + 0 - 1)
      with (q400 * 400 + 1 + 3 * 100 + 24 * 4 + 3) by lia.
    unfold ymd2ord, days_before_month, days_in_month.
    rewrite days_before_year_cycles, is_leap_cycles by lia.
    simpl. lia.
  - assert (0 ≤ n100 ≤ 3 ∧ 0 ≤ n4 ≤ 24 ∧ 0 ≤ n1 ≤ 3) as (? & ? & ?) by lia.
    destruct (month_day_spec ((n1 =? 3) && (negb (n4 =? 24) || (n100 =? 3))) r1 B1)
      as (m & d & -> & Hm & Hd1 & Hd2 & Hsum).
    eexists _, m, d. split; [reflexivity|].
    unfold ymd2ord, days_before_month, days_in_month.
    rewrite days_before_year_cycles, is_leap_cycles by lia.
    set (leap := (n1 =? 3) && (negb (n4 =? 24) || (n100 =? 3))) in *.
    repeat split; try lia.
    destruct (Z.eqb_spec m 2) as [->|Hm2]; simpl in *; [destruct leap; simpl in *; lia | lia].
Qed.

(** The constructor's checks as bounds, and back. *)
Lemma valid_fields (dt : datetime) :
  valid dt →
  1 ≤ year dt ≤ 9999 ∧ 1 ≤ month dt ≤ 12
  ∧ 1 ≤ day dt ≤ days_in_month (year dt) (month dt)
  ∧ 0 ≤ hour dt ≤ 23 ∧ 0 ≤ minute dt ≤ 59 ∧ 0 ≤ second dt ≤ 59
  ∧ 0 ≤ microsecond dt ≤ 999999.
Proof.
  unfold valid, check_fields, MINYEAR, MAXYEAR. intros H.
  repeat (apply andb_prop in H as [H ?]). lia.
Qed.

Lemma valid_intro (y m d hh mm ss us : Z) :
  1 ≤ y ≤ 9999 → 1 ≤ m ≤ 12 → 1 ≤ d ≤ days_in_month y m →
  0 ≤ hh ≤ 23 → 0 ≤ mm ≤ 59 → 0 ≤ ss ≤ 59 → 0 ≤ us ≤ 999999 →
  valid (mk_datetime y m d hh mm ss us).
Proof.
  intros. unfold valid, check_fields, MINYEAR, MAXYEAR. simpl.
  repeat (apply andb_true_intro; split); lia.
Qed.

Lemma days_before_month_bounds (y m : Z) :
  1 ≤ m ≤ 12 →
  0 ≤ days_before_month y m
  ∧ days_before_month y m + days_in_month y m ≤ 366.
Proof.
  intros Hm. unfold days_before_month, days_in_month.
  assert (m = 1 ∨ m = 2 ∨ m = 3 ∨ m = 4 ∨ m = 5 ∨ m = 6 ∨ m = 7 ∨ m = 8
          ∨ m = 9 ∨ m = 10 ∨ m = 11 ∨ m = 12) as Hcases by lia.
  destruct (is_leap y);
    repeat (destruct Hcases as [->|Hcases]; [simpl; lia|]); subst m; simpl; lia.
Qed.

Lemma days_before_year_bounds (y : Z) :
  1 ≤ y → 0 ≤ days_before_year y ≤ 366 * y.
Proof. intros Hy. unfold days_before_year. Z.div_mod_to_equations. lia. Qed.

(** The ordinal of a datetime is positive, and [us_of] lies within its
    day. *)
Lemma toordinal_bounds (dt : datetime) :
  valid dt → 1 ≤ toordinal dt ≤ 4000000.
Proof.
  intros (Hy & Hm & Hd & _)%valid_fields. unfold toordinal, ymd2ord.
  pose proof (days_before_year_bounds (year dt) ltac:(lia)).
  pose proof (days_before_month_bounds (year dt) (month dt) Hm). lia.
Qed.

Lemma us_of_bounds (dt : datetime) :
  valid dt →
  toordinal dt * US_PER_DAY ≤ us_of dt < (toordinal dt + 1) * US_PER_DAY.
Proof.
  intros Hv. pose proof (valid_fields dt Hv).
  unfold us_of, US_PER_DAY, US_PER_SECOND. lia.
Qed.

(** The range check of [timedelta]. *)
Lemma timedelta_of_us_ok (us : Z) :
  -999999999 ≤ us / US_PER_DAY ≤ 999999999 →
  timedelta_of_us us = inr (mk_timedelta us).
Proof.
  intros H. unfold timedelta_of_us.
  by rewrite (proj2 (andb_true_iff _ _)) by (split; apply Z.leb_le; lia).
Qed.

Lemma timedelta_of_us_overflow (us : Z) :
  999999999 < us / US_PER_DAY → timedelta_of_us us = inl OverflowError.
Proof.
  intros H. unfold timedelta_of_us.
  rewrite (proj2 (Z.leb_gt (us / US_PER_DAY) 999999999)) by lia.
  by rewrite andb_false_r.
Qed.

(** The [delta] that [__add__] builds from [self]. *)
Lemma timedelta_new_self (dt : datetime) :
  valid dt →
  timedelta_new (toordinal dt) (hour dt) (minute dt) (second dt) (microsecond dt)
    = inr (mk_timedelta (us_of dt))
  ∧ 1 ≤ us_of dt / US_PER_DAY ≤ 4000000.
Proof.
  intros Hv.
  pose proof (toordinal_bounds dt Hv) as Hord.
  pose proof (us_of_bounds dt Hv) as Hus.
  assert (1 ≤ us_of dt / US_PER_DAY ≤ 4000000) as Hd0.
  { unfold US_PER_DAY, US_PER_SECOND in *. Z.div_mod_to_equations. lia. }
  split; [|done]. unfold timedelta_new.
  replace ((((toordinal dt * 24 + hour dt) * 60 + minute dt) * 60 + second dt)
            * US_PER_SECOND + microsecond dt) with (us_of dt)
    by (unfold us_of, US_PER_SECOND; lia).
  apply timedelta_of_us_ok. lia.
Qed.

(** [datetime + timedelta] for a delta that is not negative: the datetime
    that many microseconds later when it is on or before 9999-12-31, the
    overflow otherwise. *)
Lemma add_ok (dt : datetime) (td : timedelta) :
  valid dt → 0 ≤ total_us td →
  (us_of dt + total_us td) / US_PER_DAY ≤ MAXORDINAL →
  ∃ t, add dt td = inr t ∧ valid t ∧ us_of t = us_of dt + total_us td.
Proof.
  intros Hv Htd Hmax.
  destruct (timedelta_new_self dt Hv) as [Hself Hd0].
  unfold add, timedelta_add. rewrite Hself. cbn [mbind result_bind total_us].
  set (u := us_of dt + total_us td) in *.
  assert (1 ≤ u / US_PER_DAY) as Hd1.
  { etrans; [apply Hd0|]. apply Z.div_le_mono; [done|lia]. }
  unfold MAXORDINAL in *.
  rewrite timedelta_of_us_ok by lia.
  cbn [mbind result_bind]. unfold td_days, td_seconds, td_microseconds. cbn [total_us].
  rewrite (proj2 (andb_true_iff _ _)) by (split; [apply Z.ltb_lt|apply Z.leb_le]; lia).
  destruct (ord2ymd_spec (u / US_PER_DAY) Hd1)
    as (y & m & d & -> & Hord' & Hy & Hm & Hd & Hymax).
  eexists. split; [reflexivity|].
  unfold US_PER_DAY, US_PER_SECOND, MAXYEAR, MAXORDINAL in *.
  split.
  - apply valid_intro; try lia; Z.div_mod_to_equations; lia.
  - unfold us_of, toordinal. cbn [year month day hour minute second microsecond].
    rewrite Hord'. unfold US_PER_SECOND. Z.div_mod_to_equations. lia.
Qed.

Lemma add_overflow (dt : datetime) (td : timedelta) :
  valid dt → 0 ≤ total_us td →
  MAXORDINAL < (us_of dt + total_us td) / US_PER_DAY →
  add dt td = inl OverflowError.
Proof.
  intros Hv Htd Hmax.
  destruct (timedelta_new_self dt Hv) as [Hself Hd0].
  unfold add, timedelta_add. rewrite Hself. cbn [mbind result_bind total_us].
  set (u := us_of dt + total_us td) in *.
  destruct (Z_le_gt_dec (u / US_PER_DAY) 999999999) as [Hle|Hgt].
  - rewrite timedelta_of_us_ok by (unfold MAXORDINAL in *; lia).
    cbn [mbind result_bind]. unfold td_days. cbn [total_us].
    rewrite (proj2 (Z.leb_gt (u / US_PER_DAY) MAXORDINAL)) by lia.
    by rewrite andb_false_r.
  - rewrite timedelta_of_us_overflow by lia. done.
Qed.

(** [_fix] moves whole days out of the hours and keeps their sum. *)
Lemma relativedelta_hours_total (h : Z) :
  rd_days (relativedelta_hours h) * 24 + rd_hours (relativedelta_hours h) = h.
Proof.
  unfold relativedelta_hours.
  destruct (Z.abs h >? 23) eqn:Habs; cbn [rd_days rd_hours]; [|lia].
  apply Z.gtb_lt in Habs.
  destruct (Z.sgn_spec h) as [[? ->]|[[? ->]|[? ->]]]; [|lia|];
    Z.div_mod_to_equations; lia.
Qed.

Lemma add_relativedelta_hours (dt : datetime) (h : Z) :
  add_relativedelta dt (relativedelta_hours h)
    = td ← timedelta_of_us (hours_us h); add dt td.
Proof.
  unfold add_relativedelta, timedelta_new, hours_us.
  pose proof (relativedelta_hours_total h) as Htot.
  replace ((((rd_days (relativedelta_hours h) * 24
              + rd_hours (relativedelta_hours h)) * 60 + 0) * 60 + 0)
             * US_PER_SECOND + 0)
    with (h * 3600 * US_PER_SECOND) by (unfold US_PER_SECOND; lia).
  done.
Qed.

(** The sum of a datetime and a number of hours: the result when it can be
    represented, the overflow when it cannot. *)
Lemma add_hours_ok (dt : datetime) (h : Z) :
  valid dt → 0 ≤ h →
  (us_of dt + hours_us h) / US_PER_DAY ≤ MAXORDINAL →
  ∃ t, add_relativedelta dt (relativedelta_hours h) = inr t
       ∧ valid t ∧ us_of t = us_of dt + hours_us h.
Proof.
  intros Hv Hh Hmax. rewrite add_relativedelta_hours.
  pose proof (us_of_bounds dt Hv). pose proof (toordinal_bounds dt Hv).
  assert (0 ≤ hours_us h) by (unfold hours_us, US_PER_SECOND; lia).
  rewrite timedelta_of_us_ok.
  - cbn [mbind result_bind]. by apply add_ok.
  - unfold MAXORDINAL, US_PER_DAY, US_PER_SECOND in *.
    Z.div_mod_to_equations. lia.
Qed.

Lemma add_hours_overflow (dt : datetime) (h : Z) :
  valid dt → 0 ≤ h →
  MAXORDINAL < (us_of dt + hours_us h) / US_PER_DAY →
  add_relativedelta dt (relativedelta_hours h) = inl OverflowError.
Proof.
  intros Hv Hh Hmax. rewrite add_relativedelta_hours.
  assert (0 ≤ hours_us h) by (unfold hours_us, US_PER_SECOND; lia).
  destruct (Z_le_gt_dec (hours_us h / US_PER_DAY) 999999999) as [Hle|Hgt].
  - rewrite timedelta_of_us_ok.
    + cbn [mbind result_bind]. by apply add_overflow.
    + split; [|done]. etrans; [|apply Z.div_pos; [done|]]; [lia|].
      unfold US_PER_DAY, US_PER_SECOND. lia.
  - by rewrite timedelta_of_us_overflow by lia.
Qed.












(** Digits: writing and reading back. *)
Lemma digit_value_char (d : Z) :
  0 ≤ d ≤ 9 → digit_value (digit_char d) = Some d.
Proof.
  intros Hd.
  assert (d = 0 ∨ d = 1 ∨ d = 2 ∨ d = 3 ∨ d = 4 ∨ d = 5 ∨ d = 6 ∨ d = 7
          ∨ d = 8 ∨ d = 9) as Hcases by lia.
  repeat (destruct Hcases as [->|Hcases]; [reflexivity|]). by subst d.
Qed.

(** [+:+] is sealed against [simpl]; its equations are restated here. *)
Lemma app_cons (c : ascii) (s t : string) :
  String c s +:+ t = String c (s +:+ t).
Proof. reflexivity. Qed.

Lemma app_single (c : ascii) (t : string) : String c "" +:+ t = String c t.
Proof. reflexivity. Qed.

Lemma app_empty_r (s : string) : s +:+ "" = s.
Proof. induction s as [|c s IH]; [done|]. by rewrite app_cons, IH. Qed.

Lemma app_assoc_s (a b c : string) : (a +:+ b) +:+ c = a +:+ (b +:+ c).
Proof. induction a as [|x a IH]; [done|]. by rewrite !app_cons, IH. Qed.

(** Reading [w] digits back from what [fixed_digits] wrote. *)
Lemma take_digits_fixed (w : nat) (n acc : Z) (rest : string) :
  0 ≤ n →
  take_digits w acc (fixed_digits w n +:+ rest)
    = Some (acc * 10 ^ Z.of_nat w + n mod 10 ^ Z.of_nat w, rest).
Proof.
  intros Hn. revert acc. induction w as [|w IH]; intros acc.
  - simpl. rewrite Z.mod_1_r. do 2 f_equal. lia.
  - cbn [fixed_digits].
    rewrite app_cons.
    cbn [take_digits].
    assert (0 < 10 ^ Z.of_nat w) as Hpow by (apply Z.pow_pos_nonneg; lia).
    rewrite digit_value_char
      by (pose proof (Z.mod_pos_bound (n / 10 ^ Z.of_nat w) 10); lia).
    cbn [mbind option_bind]. rewrite IH. do 2 f_equal.
    rewrite Nat2Z.inj_succ, Z.pow_succ_r by lia.
    rewrite (Z.mul_comm 10 (10 ^ Z.of_nat w)).
    rewrite (Z.rem_mul_r n (10 ^ Z.of_nat w) 10) by lia. lia.
Qed.

Lemma take_digits_fixed_end (w : nat) (n : Z) :
  0 ≤ n < 10 ^ Z.of_nat w →
  take_digits w 0 (fixed_digits w n) = Some (n, EmptyString).
Proof.
  intros Hn.
  rewrite <- (app_empty_r (fixed_digits w n)).
  rewrite take_digits_fixed by lia. rewrite Z.mod_small by lia. done.
Qed.

Lemma take_digits_field (w : nat) (n : Z) (rest : string) :
  0 ≤ n < 10 ^ Z.of_nat w →
  take_digits w 0 (fmt_0d w n +:+ rest) = Some (n, rest).
Proof.
  intros Hn. unfold fmt_0d, pad0.
  rewrite (proj2 (Z.ltb_ge n 0)), (proj2 (Z.ltb_lt n _)) by lia.
  rewrite take_digits_fixed by lia. rewrite Z.mod_small by lia. done.
Qed.

(** Reading back what [str] wrote gives the datetime that was written. *)
Lemma parse_str (dt : datetime) : valid dt → parse (str dt) = Some dt.
Proof.
  intros Hv.
  pose proof (valid_fields dt Hv) as (Hy & Hm & Hd & Hh & Hmi & Hs & Hus).
  assert (days_in_month (year dt) (month dt) ≤ 31) as Hdim.
  { pose proof (days_before_month_bounds (year dt) (month dt) Hm).
    unfold days_in_month, DAYS_IN_MONTH.
    destruct ((month dt =? 2) && _); [lia|].
    destruct (month dt) as [|[[[[]|[]|]|[[]|[]|]|]|[[[]|[]|]|[[]|[]|]|]|]|]; lia. }
  unfold parse, str.
  repeat first
    [ rewrite take_digits_field by (simpl; lia)
    | rewrite app_single
    | progress cbn [mbind option_bind expect Ascii.eqb Bool.eqb] ].
  assert (parse_fraction
            (if microsecond dt =? 0 then ""
             else String "." (fmt_0d 6 (microsecond dt)))
          = Some (microsecond dt)) as ->.
  { destruct (Z.eqb_spec (microsecond dt) 0) as [->|Hne]; [done|].
    cbn [parse_fraction Ascii.eqb Bool.eqb].
    unfold fmt_0d, pad0.
    rewrite (proj2 (Z.ltb_ge _ 0)), (proj2 (Z.ltb_lt _ _)) by (simpl; lia).
    rewrite take_digits_fixed_end by (simpl; lia). done. }
  cbn [mbind option_bind]. destruct dt; cbn in *. by rewrite Hv.
Qed.

End CalendarFacts.

(** ** The column headers *)

Section Headers.
Import Datetime Pandas.

(** [result_mapM] returns exactly when every element does. *)
Lemma result_mapM_inr {A B} (f : A → result B) (l : list A) (ys : list B) :
  result_mapM f l = inr ys ↔ Forall2 (λ x y, f x = inr y) l ys.
Proof.
  revert ys. induction l as [|x l IH]; intros ys; simpl.
  - split; [intros [= <-]; constructor|by inversion 1].
  - destruct (f x) as [e|y] eqn:Hfx.
    + split; [done|]. inversion 1; congruence.
    + destruct (result_mapM f l) as [e|ys'] eqn:Hl.
      * split; [done|]. inversion 1 as [|? y' ? ys'' Hy Hys]; subst.
        by apply IH in Hys.
      * split.
        -- intros [= <-]. constructor; [done|]. by apply IH.
        -- inversion 1 as [|? y' ? ys'' Hy Hys]; subst.
           apply IH in Hys. congruence.
Qed.

Lemma result_mapM_total {A B} (f : A → result B) (l : list A) :
  Forall (λ x, ∃ y, f x = inr y) l → ∃ ys, result_mapM f l = inr ys.
Proof.
  induction 1 as [|x l [y Hy] _ [ys IH]]; simpl; [by eexists|].
  rewrite Hy, IH. by eexists.
Qed.

(** [range]. *)
Lemma range_lookup (n : Z) (i : nat) :
  (i < Z.to_nat n)%nat → range n !! i = Some (Z.of_nat i).
Proof.
  intros Hi. unfold range. by rewrite list_lookup_fmap, lookup_seq_lt.
Qed.

Lemma range_length (n : Z) : length (range n) = Z.to_nat n.
Proof. unfold range. by rewrite length_fmap, length_seq. Qed.

Lemma elem_of_range (n j : Z) : j ∈ range n → (0 ≤ j < n)%Z.
Proof.
  unfold range. intros (k & -> & Hk%elem_of_seq)%list_elem_of_fmap. lia.
Qed.

Local Open Scope Z_scope.

(** An hour sum that was returned is the instant that many hours later. *)
Lemma add_hours_inv (dt t : datetime) (h : Z) :
  valid dt → 0 ≤ h →
  add_relativedelta dt (relativedelta_hours h) = inr t →
  valid t ∧ us_of t = us_of dt + hours_us h
  ∧ (us_of dt + hours_us h) / US_PER_DAY ≤ MAXORDINAL.
Proof.
  intros Hv Hh Hadd.
  destruct (Z_le_gt_dec ((us_of dt + hours_us h) / US_PER_DAY) MAXORDINAL)
    as [Hle|Hgt].
  - destruct (add_hours_ok dt h Hv Hh Hle) as (t' & Ht' & ? & ?).
    rewrite Hadd in Ht'. by injection Ht' as ->.
  - rewrite add_hours_overflow in Hadd by (done || lia). discriminate.
Qed.

Lemma hours_us_mono (h1 h2 : Z) : h1 ≤ h2 → hours_us h1 ≤ hours_us h2.
Proof. unfold hours_us, US_PER_SECOND. lia. Qed.

(** When the last time step can be represented, so can every earlier one. *)
Lemma add_hours_earlier (dt t : datetime) (h h' : Z) :
  valid dt → 0 ≤ h' ≤ h →
  add_relativedelta dt (relativedelta_hours h) = inr t →
  ∃ t', add_relativedelta dt (relativedelta_hours h') = inr t'
        ∧ valid t' ∧ us_of t' = us_of dt + hours_us h'.
Proof.
  intros Hv Hh Hadd.
  destruct (add_hours_inv dt t h Hv ltac:(lia) Hadd) as (_ & _ & Hmax).
  apply add_hours_ok; [done|lia|].
  etrans; [|exact Hmax]. apply Z.div_le_mono; [done|].
  pose proof (hours_us_mono h' h ltac:(lia)). lia.
Qed.

(** What [column_headers] returns, when it returns. *)
Lemma column_headers_inr (C : nat) (dt : datetime) (cols : list string) :
  column_headers C dt = inr cols ↔
  ∃ stamps, cols = "lng" :: "lat" :: stamps
    ∧ Forall2 (λ j s, Datetime.str <$>
                 add_relativedelta dt (relativedelta_hours (3 * j)) = inr s)
              (range (Z.of_nat C - 2)) stamps.
Proof.
  unfold column_headers.
  destruct (result_mapM _ _) as [e|stamps] eqn:Hm; cbn [mbind result_bind mret result_ret].
  - split; [done|]. intros (stamps & _ & H2). apply result_mapM_inr in H2.
    congruence.
  - apply result_mapM_inr in Hm. split.
    + intros [= <-]. by exists stamps.
    + intros (stamps' & -> & H2). apply result_mapM_inr in H2.
      apply result_mapM_inr in Hm. rewrite H2 in Hm. by injection Hm as ->.
Qed.

Lemma fmap_str_inr (r : result datetime) (s : string) :
  Datetime.str <$> r = inr s ↔ ∃ t, r = inr t ∧ s = Datetime.str t.
Proof.
  destruct r as [e|t]; cbn.
  - split; [done|]. by intros (? & ? & ?).
  - split; [intros [= <-]; eauto|]. by intros (? & [= <-] & ->).
Qed.

Local Close Scope Z_scope.

(** The labeler returns when the last time step can be represented. *)
Lemma column_headers_total (C : nat) (dt : datetime) :
  valid dt → last_step_representable dt C →
  ∃ cols, column_headers C dt = inr cols.
Proof.
  intros Hv Hlast.
  destruct (result_mapM_total
              (λ j, Datetime.str <$>
                      add_relativedelta dt (relativedelta_hours (3 * j)))
              (range (Z.of_nat C - 2))) as [stamps Hstamps].
  { apply Forall_forall. intros j Hj%elem_of_range.
    destruct Hlast as [t Ht]; [lia|].
    destruct (add_hours_earlier dt t (3 * (Z.of_nat C - 3)) (3 * j) Hv
                ltac:(lia) Ht) as (t' & -> & _).
    by eexists. }
  exists ("lng" :: "lat" :: stamps). apply column_headers_inr.
  exists stamps. split; [done|]. by apply result_mapM_inr.
Qed.

(** C3, as the code has it. When the epoch is a datetime and the last time
    step of a [C]-column matrix can be represented, the labeler returns its
    labels: [C] of them when [C >= 2] and the two coordinate labels alone
    when [C < 2], always with ["lng"] and ["lat"] in front, and with the
    label at position [2 + i] the text of the datetime [3 * i] hours after
    the epoch, for every [i < C - 2]. *)
Theorem column_headers_spec (C : nat) (dt : datetime) :
  valid dt → last_step_representable dt C →
  ∃ cols, column_headers C dt = inr cols
    ∧ length cols = Nat.max 2 C
    ∧ take 2 cols = ["lng"; "lat"]
    ∧ ∀ i : nat, i < C - 2 →
        ∃ t, add_relativedelta dt (relativedelta_hours (3 * Z.of_nat i)) = inr t
             ∧ valid t
             ∧ us_of t = (us_of dt + hours_us (3 * Z.of_nat i))%Z
             ∧ cols !! (2 + i) = Some (Datetime.str t).
Proof.
  intros Hv Hlast.
  destruct (column_headers_total C dt Hv Hlast) as [cols Hcols].
  exists cols. split; [exact Hcols|].
  apply column_headers_inr in Hcols as (stamps & -> & H2).
  pose proof (Forall2_length _ _ _ H2) as Hlen. rewrite range_length in Hlen.
  split; [simpl; lia|]. split; [done|].
  intros i Hi.
  destruct (Forall2_lookup_l _ _ _ i _ H2
              (range_lookup (Z.of_nat C - 2) i ltac:(lia))) as (s & Hs & Hstr).
  apply fmap_str_inr in Hstr as (t & Ht & ->).
  destruct (add_hours_inv dt t (3 * Z.of_nat i) Hv ltac:(lia) Ht) as (? & ? & _).
  by exists t.
Qed.


End Headers.

(** ** Frames: columns, transposition, iteration *)

Section FrameFacts.
Context {V : Type}.
Import Pandas.

Lemma column_Forall2 (j : nat) (rows : list (list V)) :
  Forall (λ row, (j < length row)%nat) rows →
  Forall2 (λ row v, row !! j = Some v) rows (column j rows).
Proof.
  unfold column. induction 1 as [|row rows Hj _ IH]; simpl.
  - constructor.
  - destruct (lookup_lt_is_Some_2 row j Hj) as [v Hv].
    rewrite Hv. simpl. by constructor.
Qed.

Lemma frame_wf_rows_lt {I C} (df : DataFrame I C V) (j : nat) :
  frame_wf df → (j < length (columns df))%nat →
  Forall (λ row, (j < length row)%nat) (values df).
Proof.
  intros [_ Hrows] Hj. eapply Forall_impl; [exact Hrows|].
  simpl. intros row ->. exact Hj.
Qed.

Lemma T_values_lookup {I C} (df : DataFrame I C V) (i : nat) :
  (i < length (columns df))%nat →
  values (T df) !! i = Some (column i (values df)).
Proof.
  intros Hi. unfold T. simpl.
  rewrite list_lookup_fmap, lookup_seq_lt by done. done.
Qed.

Lemma T_wf {I C} (df : DataFrame I C V) : frame_wf df → frame_wf (T df).
Proof.
  intros Hwf. split; simpl.
  - by rewrite length_fmap, length_seq.
  - apply Forall_fmap, Forall_forall. intros j Hj. simpl.
    apply elem_of_seq in Hj.
    pose proof (column_Forall2 j (values df)
                  (frame_wf_rows_lt df j Hwf ltac:(lia))) as H2.
    apply Forall2_length in H2. destruct Hwf as [Hlen _]. congruence.
Qed.

Lemma iterrows_length {I C} (df : DataFrame I C V) :
  frame_wf df → length (iterrows df) = length (index df).
Proof.
  intros [Hlen _]. unfold iterrows.
  rewrite length_zip_with, length_fmap. lia.
Qed.

Lemma iterrows_lookup {I C} (df : DataFrame I C V) (r : nat) l row :
  index df !! r = Some l → values df !! r = Some row →
  iterrows df !! r = Some (l, zip (columns df) row).
Proof.
  intros Hl Hrow. unfold iterrows.
  rewrite lookup_zip_with, Hl. simpl.
  rewrite list_lookup_fmap, Hrow. done.
Qed.

(** Row [i] of the transpose: the label of column [i] with, for every row
    label of the frame, the cell of that row in column [i]. *)
Lemma iterrows_T_lookup {I C} (df : DataFrame I C V) (i : nat) (c : C) :
  frame_wf df → columns df !! i = Some c →
  iterrows (T df) !! i = Some (c, zip (index df) (column i (values df))).
Proof.
  intros Hwf Hc. apply iterrows_lookup; [exact Hc|].
  apply T_values_lookup. by eapply lookup_lt_Some.
Qed.

Lemma column_lookup {I C} (df : DataFrame I C V) (i k : nat) row :
  frame_wf df → (i < length (columns df))%nat →
  values df !! k = Some row →
  ∃ v, row !! i = Some v ∧ column i (values df) !! k = Some v.
Proof.
  intros Hwf Hi Hrow.
  pose proof (column_Forall2 i (values df) (frame_wf_rows_lt df i Hwf Hi)) as H2.
  destruct (Forall2_lookup_l _ _ _ _ _ H2 Hrow) as (v & Hv & Hrv). eauto.
Qed.

Lemma column_length {I C} (df : DataFrame I C V) (i : nat) :
  frame_wf df → (i < length (columns df))%nat →
  length (column i (values df)) = length (index df).
Proof.
  intros Hwf Hi.
  pose proof (column_Forall2 i (values df) (frame_wf_rows_lt df i Hwf Hi)) as H2.
  apply Forall2_length in H2. destruct Hwf as [Hlen _]. congruence.
Qed.

End FrameFacts.

(** ** The index *)

Section IndexFacts.
Import Datetime Pandas.

(** [contains] over a concatenation. *)
Lemma contains_app (c : ascii) (a b : string) :
  PyStr.contains c (a +:+ b) = PyStr.contains c a || PyStr.contains c b.
Proof.
  induction a as [|x a IH]; [done|].
  rewrite app_cons. cbn [PyStr.contains]. rewrite IH. by rewrite orb_assoc.
Qed.

(** A timestamp label holds a hyphen, so it is neither of the two
    coordinate labels. *)
Lemma str_contains_hyphen (t : datetime) :
  PyStr.contains "-" (Datetime.str t) = true.
Proof.
  unfold Datetime.str. rewrite contains_app, app_single.
  cbn [PyStr.contains Ascii.eqb Bool.eqb]. by rewrite orb_true_r.
Qed.

Lemma str_not_coordinate (t : datetime) :
  Datetime.str t ≠ "lng" ∧ Datetime.str t ≠ "lat".
Proof.
  pose proof (str_contains_hyphen t) as H.
  split; intros Heq; rewrite Heq in H; discriminate.
Qed.

(** The labels behind the two coordinate labels: [C - 2] of them, none a
    coordinate label. *)
Lemma column_headers_stamps (C : nat) (dt : datetime) (cols : list string) :
  column_headers C dt = inr cols →
  ∃ stamps, cols = "lng" :: "lat" :: stamps
    ∧ length stamps = C - 2
    ∧ Forall (λ s, s ≠ "lng" ∧ s ≠ "lat") stamps.
Proof.
  intros (stamps & -> & H2)%column_headers_inr. exists stamps.
  split; [done|]. split.
  - apply Forall2_length in H2. rewrite range_length in H2. lia.
  - clear -H2. induction H2 as [|j s ? ? Hs _ IH]; constructor; [|done].
    apply fmap_str_inr in Hs as (t & _ & ->). apply str_not_coordinate.
Qed.

Section Indexer.
Context {V : Type}.

(** [set_index] on a frame whose columns are the two coordinate labels
    followed by other labels. *)
Lemma drop_labels_stamps (stamps : list string) :
  Forall (λ s, s ≠ "lng" ∧ s ≠ "lat") stamps →
  drop_labels "lng" "lat" ("lng" :: "lat" :: stamps) = stamps.
Proof.
  intros Hs. unfold drop_labels.
  rewrite filter_cons_False by (intros [H _]; by apply H).
  rewrite filter_cons_False by (intros [_ H]; by apply H).
  induction Hs as [|s stamps Hs _ IH]; [done|].
  by rewrite filter_cons_True, IH.
Qed.

Lemma drop_cells_stamps (stamps : list string) (x y : V) (rest : list V) :
  Forall (λ s, s ≠ "lng" ∧ s ≠ "lat") stamps →
  length rest = length stamps →
  drop_cells "lng" "lat" ("lng" :: "lat" :: stamps) (x :: y :: rest) = rest.
Proof.
  intros Hs Hlen. unfold drop_cells. cbn [zip zip_with].
  rewrite filter_cons_False by (intros [H _]; by apply H).
  rewrite filter_cons_False by (intros [_ H]; by apply H).
  revert rest Hlen. induction Hs as [|s stamps Hs _ IH]; intros rest Hlen.
  - by destruct rest.
  - destruct rest as [|v rest]; [done|]. cbn [zip zip_with].
    rewrite filter_cons_True by done. cbn [fmap list_fmap snd].
    f_equal. apply IH. simpl in Hlen. lia.
Qed.

(** A row with its two coordinates in front. *)
Lemma row_split (n : nat) (row : list V) :
  length row = n → 2 ≤ n →
  ∃ x y rest, row = x :: y :: rest ∧ length rest = n - 2.
Proof.
  intros Hlen Hn. destruct row as [|x [|y rest]]; simpl in *; try lia.
  exists x, y, rest. split; [done|lia].
Qed.

Lemma get_loc_lng (stamps : list string) :
  get_loc "lng" ("lng" :: "lat" :: stamps) = inr 0.
Proof. reflexivity. Qed.

Lemma get_loc_lat (stamps : list string) :
  get_loc "lat" ("lng" :: "lat" :: stamps) = inr 1.
Proof. reflexivity. Qed.

Lemma set_index_coordinates (stamps : list string) (rows : list (list V))
    (idx : list nat) :
  Forall (λ s, s ≠ "lng" ∧ s ≠ "lat") stamps →
  Forall (λ row, length row = 2 + length stamps) rows →
  set_index "lng" "lat" (mk_frame idx ("lng" :: "lat" :: stamps) rows)
    = inr (mk_frame (omap (row_key 0 1) rows) stamps (drop 2 <$> rows))
  ∧ Forall2 (λ row k, ∃ x y, row = x :: y :: drop 2 row ∧ k = (x, y))
            rows (omap (row_key 0 1) rows).
Proof.
  intros Hs Hrows. split.
  - unfold set_index. cbn [columns values].
    rewrite get_loc_lng, get_loc_lat. cbn [mbind result_bind mret result_ret].
    rewrite drop_labels_stamps by done. do 2 f_equal.
    apply Forall_fmap_ext_1. eapply Forall_impl; [exact Hrows|].
    intros row Hlen.
    destruct (row_split (2 + length stamps) row Hlen ltac:(lia)) as (x & y & rest & -> & Hrest).
    change (drop 2 (x :: y :: rest)) with rest. apply drop_cells_stamps; [done|lia].
  - induction Hrows as [|row rows Hlen _ IH]; [constructor|].
    destruct (row_split (2 + length stamps) row Hlen ltac:(lia)) as (x & y & rest & -> & Hrest).
    cbn. constructor; [by exists x, y|exact IH].
Qed.

(** Distinct keys make the (key, values) pairs a function of the key. *)
Lemma zip_functional {K} (ks : list K) (vs : list (list V)) k v v' :
  NoDup ks → (k, v) ∈ zip ks vs → (k, v') ∈ zip ks vs → v = v'.
Proof.
  intros Hnd (i & Hi)%list_elem_of_lookup (j & Hj)%list_elem_of_lookup.
  apply lookup_zip_with_Some in Hi as (? & ? & [= <- <-] & Hki & Hvi).
  apply lookup_zip_with_Some in Hj as (? & ? & [= <- <-] & Hkj & Hvj).
  assert (i = j) as -> by (by eapply NoDup_lookup).
  congruence.
Qed.

Variable env : Env V.

(** C5. For a matrix of [R] rows and [C >= 2] columns with pairwise
    distinct coordinate pairs, [mat_to_dataframe] returns a table of [R]
    entries under the timestamp labels; entry [r] has the key
    [(matrix[r][0], matrix[r][1])] and the values [matrix[r][2:]], one per
    timestamp label ([C - 2] of them), and no key has two value
    sequences. *)
Theorem mat_to_dataframe_indexed (path var_name : string)
    (dt : option datetime) (mat : container V) (a : ndarray V) :
  scipy_loadmat env path = inr mat →
  mat !! var_name = Some a →
  ndarray_wf a → 2 ≤ shape1 a →
  valid (default default_dt dt) →
  last_step_representable (default default_dt dt) (shape1 a) →
  NoDup (omap (row_key 0 1) (arr_rows a)) →
  ∃ dfm cols,
    mat_to_dataframe env path var_name None dt = inr dfm
    ∧ column_headers (shape1 a) (default default_dt dt) = inr cols
    ∧ columns dfm = drop 2 cols
    ∧ length (columns dfm) = shape1 a - 2
    ∧ length (index dfm) = shape0 a
    ∧ (∀ (r : nat) (row : list V),
         arr_rows a !! r = Some row →
         ∃ x y, row !! 0 = Some x ∧ row !! 1 = Some y
                ∧ index dfm !! r = Some (x, y)
                ∧ values dfm !! r = Some (drop 2 row)
                ∧ length (drop 2 row) = shape1 a - 2)
    ∧ (∀ key vs vs',
         (key, vs) ∈ zip (index dfm) (values dfm) →
         (key, vs') ∈ zip (index dfm) (values dfm) → vs = vs').
Proof.
  intros Hload Hvar Hwf HC Hv Hlast Hnd.
  destruct (column_headers_total _ _ Hv Hlast) as [cols Hcols].
  destruct (column_headers_stamps _ _ _ Hcols) as (stamps & -> & Hlen & Hs).
  assert (Forall (λ row, length row = 2 + length stamps) (arr_rows a)) as Hrows.
  { eapply Forall_impl; [exact Hwf|]. simpl. intros row ->. lia. }
  destruct (set_index_coordinates stamps (arr_rows a) (seq 0 (shape0 a)) Hs Hrows)
    as [Hset Hkeys].
  eexists _, _. split; [|split; [exact Hcols|]].
  { unfold mat_to_dataframe. rewrite Hload. cbn [mbind result_bind].
    unfold getitem. rewrite Hvar. cbn [mbind result_bind]. rewrite Hcols. cbn [mbind result_bind].
    unfold DataFrame_with_columns.
    rewrite bool_decide_eq_true_2 by (simpl; lia).
    cbn [mbind result_bind]. unfold limit_and_index.
    cbn [mbind result_bind mret result_ret]. exact Hset. }
  cbn [columns index values].
  split; [done|]. split; [lia|]. split; [|split].
  - apply Forall2_length in Hkeys. unfold shape0. lia.
  - intros r row Hrow.
    destruct (Forall2_lookup_l _ _ _ _ _ Hkeys Hrow) as (k & Hk & x & y & Hxy & ->).
    exists x, y. rewrite Hxy at 1 2. split; [done|]. split; [done|].
    split; [done|]. split; [by rewrite list_lookup_fmap, Hrow|].
    rewrite length_drop. rewrite Forall_forall in Hrows.
    rewrite (Hrows row) by (by eapply list_elem_of_lookup_2). lia.
  - intros key vs vs'. by apply zip_functional.
Qed.

End Indexer.

End IndexFacts.

(** ** The exporters *)

Section Exporters.
Context {V : Type}.
Import Pandas.

Implicit Types (dataframe : DataFrame (V * V) string V) (o : Out V).

(** C7. [to_csv] writes the transpose of the table: a header row that lists
    the grid-cell keys after its corner cell, then one row per timestamp,
    which starts with the timestamp label and holds one value per key, the
    value of that key's row at that timestamp. *)
Theorem to_csv_transposed dataframe (filename : string) o :
  frame_wf dataframe →
  ∃ header data,
    to_csv dataframe filename o
      = (mk_out (stderr o) (files o ++ [(filename, CsvFile (header :: data))]),
         inr ())
    ∧ header = CellBlank :: (CellKey <$> index dataframe)
    ∧ length data = length (columns dataframe)
    ∧ ∀ (t : nat) (timestamp : string),
        columns dataframe !! t = Some timestamp →
        ∃ vs, data !! t = Some (CellStr timestamp :: (CellValue <$> vs))
              ∧ length vs = length (index dataframe)
              ∧ ∀ (k : nat) (row : list V),
                  values dataframe !! k = Some row →
                  ∃ v, row !! t = Some v ∧ vs !! k = Some v.
Proof.
  intros Hwf. eexists _, _. split; [reflexivity|].
  split; [reflexivity|]. split.
  - simpl. rewrite length_zip_with, length_fmap, length_seq. lia.
  - intros t timestamp Ht.
    assert (t < length (columns dataframe))%nat as Hlt
      by (by eapply lookup_lt_Some).
    exists (column t (values dataframe)). split; [|split].
    + simpl. rewrite lookup_zip_with, Ht. simpl.
      rewrite list_lookup_fmap, lookup_seq_lt by done. done.
    + by apply column_length.
    + intros k row Hrow. by eapply column_lookup.
Qed.

(** C8. [to_json] writes an array with one object per timestamp; the
    object holds the timestamp and, under [features], a list whose single
    element is the list of the {coordinates, flux} records, one per key. *)
Theorem to_json_shape dataframe (filename : string) o :
  frame_wf dataframe →
  ∃ collection,
    to_json dataframe filename o
      = (mk_out (stderr o) (files o ++ [(filename, JsonFile (JArr collection))]),
         inr ())
    ∧ length collection = length (columns dataframe)
    ∧ ∀ (t : nat) (timestamp : string),
        columns dataframe !! t = Some timestamp →
        ∃ records,
          collection !! t
            = Some (JObj [("timestamp", JStr timestamp);
                          ("features", JArr [JArr records])])
          ∧ length records = length (index dataframe)
          ∧ ∀ (k : nat) (key : V * V) (row : list V),
              index dataframe !! k = Some key →
              values dataframe !! k = Some row →
              ∃ v, row !! t = Some v
                   ∧ records !! k = Some (point_record key v).
Proof.
  intros Hwf. eexists. split; [reflexivity|]. split.
  - rewrite length_fmap, (iterrows_length _ (T_wf _ Hwf)). done.
  - intros t timestamp Ht.
    assert (t < length (columns dataframe))%nat as Hlt
      by (by eapply lookup_lt_Some).
    eexists. split; [|split].
    + rewrite list_lookup_fmap, (iterrows_T_lookup _ _ _ Hwf Ht). reflexivity.
    + unfold iterkv. rewrite length_fmap, length_zip_with, column_length by done.
      lia.
    + intros k key row Hkey Hrow.
      destruct (column_lookup _ _ _ _ Hwf Hlt Hrow) as (v & Hv & Hcol).
      exists v. split; [done|].
      unfold iterkv. rewrite list_lookup_fmap, lookup_zip_with, Hkey. simpl.
      rewrite Hcol. done.
Qed.

(** C9. [to_geojson] writes one FeatureCollection whose [features] hold one
    nested FeatureCollection per timestamp; the nested collection carries
    the timestamp under [properties] and one Point per key under
    [features], the Point carrying the key's value at that timestamp under
    [properties.flux]. *)
Theorem to_geojson_shape dataframe (filename : string) o :
  frame_wf dataframe →
  ∃ features,
    to_geojson dataframe filename o
      = (mk_out (stderr o)
           (files o ++ [(filename,
              JsonFile (JObj [("type", JStr "FeatureCollection");
                              ("features", JArr features)]))]),
         inr ())
    ∧ length features = length (columns dataframe)
    ∧ ∀ (t : nat) (timestamp : string),
        columns dataframe !! t = Some timestamp →
        ∃ points,
          features !! t
            = Some (JObj [("type", JStr "FeatureCollection");
                          ("properties", JObj [("timestamp", JStr timestamp)]);
                          ("features", JArr points)])
          ∧ length points = length (index dataframe)
          ∧ ∀ (k : nat) (key : V * V) (row : list V),
              index dataframe !! k = Some key →
              values dataframe !! k = Some row →
              ∃ v, row !! t = Some v
                   ∧ points !! k = Some (point_feature key v).
Proof.
  intros Hwf. eexists. split; [reflexivity|]. split.
  - rewrite length_fmap, (iterrows_length _ (T_wf _ Hwf)). done.
  - intros t timestamp Ht.
    assert (t < length (columns dataframe))%nat as Hlt
      by (by eapply lookup_lt_Some).
    eexists. split; [|split].
    + rewrite list_lookup_fmap, (iterrows_T_lookup _ _ _ Hwf Ht). reflexivity.
    + unfold iterkv. rewrite length_fmap, length_zip_with, column_length by done.
      lia.
    + intros k key row Hkey Hrow.
      destruct (column_lookup _ _ _ _ Hwf Hlt Hrow) as (v & Hv & Hcol).
      exists v. split; [done|].
      unfold iterkv. rewrite list_lookup_fmap, lookup_zip_with, Hkey. simpl.
      rewrite Hcol. done.
Qed.

End Exporters.

(** ** Batch conversion *)

Section Batch.
Context {V : Type}.
Variable env : Env V.
Variable path : string.
Variable regex : option (string → bool).

Implicit Types (o : Out V) (var_name : option string) (ls : list string).

(** The loop over a listing in two parts. *)
Lemma bulk_loop_app var_name pre post o o1 v1 :
  bulk_loop env path regex var_name pre o = (o1, inr v1) →
  bulk_loop env path regex var_name (pre ++ post) o
    = bulk_loop env path regex v1 post o1.
Proof.
  revert var_name o. induction pre as [|filename pre IH]; intros var_name o.
  - simpl. unfold io_ret. by intros [= -> ->].
  - simpl. unfold io_bind.
    destruct (bulk_step env path regex var_name filename o) as [o' [e|v']].
    + discriminate.
    + apply IH.
Qed.

(** A turn that starts with a name leaves the same name. *)
Lemma bulk_step_keeps_name (v : string) filename o o' w :
  bulk_step env path regex (Some v) filename o = (o', inr w) → w = Some v.
Proof.
  unfold bulk_step. destruct (skipped regex filename).
  - unfold io_ret. by intros [= _ <-].
  - destruct (h5py_File env _) as [[]|f]; unfold io_raise; try discriminate.
    + unfold io_bind, stderr_write, io_ret. by intros [= _ <-].
    + destruct (f !! v); [|discriminate].
      unfold io_bind, DataFrame_to_csv, write_file, io_ret. by intros [= _ <-].
Qed.

Lemma bulk_loop_keeps_name (v : string) ls o o' w :
  bulk_loop env path regex (Some v) ls o = (o', inr w) → w = Some v.
Proof.
  revert o. induction ls as [|filename ls IH]; intros o; simpl.
  - unfold io_ret. by intros [= _ <-].
  - unfold io_bind.
    destruct (bulk_step env path regex (Some v) filename o)
      as [o1 [e|v1]] eqn:Hstep; [discriminate|].
    apply bulk_step_keeps_name in Hstep as ->. apply IH.
Qed.

(** A turn that starts without a name runs as if it had been given the
    name derived from its file. *)
Lemma bulk_step_derives filename o :
  skipped regex filename = false →
  bulk_step env path regex None filename o
    = bulk_step env path regex (Some (default_var_name filename)) filename o.
Proof. unfold bulk_step. by intros ->. Qed.

Lemma bulk_loop_derives_once ls o :
  bulk_loop env path regex None ls o
    = match first_selected regex ls with
      | Some first =>
          bulk_loop env path regex (Some (default_var_name first)) ls o
      | None => (o, inr None)
      end.
Proof.
  revert o. induction ls as [|filename ls IH]; intros o; simpl; [done|].
  destruct (skipped regex filename) eqn:Hskip.
  - unfold io_bind, bulk_step. rewrite Hskip. unfold io_ret. rewrite IH.
    by destruct (first_selected regex ls).
  - unfold io_bind. by rewrite bulk_step_derives.
Qed.

(** The batch, once the listing has been read. *)
Lemma bulk_hdf5_to_csv_unfold var_name o :
  bulk_hdf5_to_csv env path var_name regex o
    = match os_listdir env path with
      | inl e => (o, inl e)
      | inr ls =>
          (bulk_loop env path regex var_name ls ;;io io_ret ()) o
      end.
Proof.
  unfold bulk_hdf5_to_csv, io_bind, io_lift.
  by destruct (os_listdir env path).
Qed.

(** A loop that starts without a name ends with the name derived from the
    first file that the pattern lets through, or without a name when the
    pattern lets none through. *)
Lemma bulk_loop_name_of_first ls o o' w :
  bulk_loop env path regex None ls o = (o', inr w) →
  w = default_var_name <$> first_selected regex ls.
Proof.
  rewrite bulk_loop_derives_once.
  destruct (first_selected regex ls) as [first|]; simpl.
  - apply bulk_loop_keeps_name.
  - by intros [= _ <-].
Qed.

(** The first selected file of a listing, seen from one of its selected
    files: an earlier one if there is any, else the file itself. *)
Lemma first_selected_app pre filename rest :
  skipped regex filename = false →
  first_selected regex (pre ++ filename :: rest)
    = Some (default filename (first_selected regex pre)).
Proof.
  intros Hskip. induction pre as [|x pre IH]; simpl.
  - by rewrite Hskip.
  - destruct (skipped regex x); [apply IH|done].
Qed.

(** C10. Called without a variable name, the batch derives the name from
    the first file that the pattern lets through and runs exactly as if it
    had been called with that name; a run that starts with a name ends with
    the same name, so no later file derives another.  A loop that starts
    without a name ends with the name derived from the first selected file
    of its listing.  And every selected file that the batch reaches is read
    under that one name: the loop arrives at it holding the name of the
    first selected file before it (none when the file is the first itself),
    and the variable looked up in its container is the one named after the
    first selected file of the directory, not after the file at hand. *)
Theorem bulk_var_name_derived_once o :
  bulk_hdf5_to_csv env path None regex o
    = match os_listdir env path with
      | inl e => (o, inl e)
      | inr ls =>
          match first_selected regex ls with
          | Some first =>
              bulk_hdf5_to_csv env path (Some (default_var_name first)) regex o
          | None => (o, inr ())
          end
      end
  ∧ (∀ (v : string) ls o' w,
       bulk_loop env path regex (Some v) ls o = (o', inr w) → w = Some v)
  ∧ (∀ ls o' w,
       bulk_loop env path regex None ls o = (o', inr w) →
       w = default_var_name <$> first_selected regex ls)
  ∧ ∀ pre filename rest (first : string) o1 v1,
      os_listdir env path = inr (pre ++ filename :: rest) →
      first_selected regex (pre ++ filename :: rest) = Some first →
      skipped regex filename = false →
      bulk_loop env path regex None pre o = (o1, inr v1) →
      v1 = default_var_name <$> first_selected regex pre
      ∧ bulk_hdf5_to_csv env path None regex o
        = match h5py_File env (PyStr.path_join path filename) with
          | inl IOError =>
              (bulk_loop env path regex (Some (default_var_name first)) rest ;;io
               io_ret ())
                (mk_out
                   (stderr o1
                    ++ ["IOError encountered for " +:+ path +:+ PyStr.newline])
                   (files o1))
          | inl e => (o1, inl e)
          | inr f =>
              match f !! default_var_name first with
              | None => (o1, inl TypeError)
              | Some a =>
                  (bulk_loop env path regex (Some (default_var_name first))
                     rest ;;io
                   io_ret ())
                    (mk_out (stderr o1)
                       (files o1
                        ++ [(PyStr.path_join path
                               (PyStr.split_head "." filename +:+ ".csv"),
                             CsvFile
                               (Pandas.csv_rows (Pandas.DataFrame_of_array a)))]))
              end
          end.
Proof.
  split; [|split; [|split]].
  - rewrite bulk_hdf5_to_csv_unfold.
    destruct (os_listdir env path) as [e|ls] eqn:Hls; [done|].
    unfold io_bind. rewrite bulk_loop_derives_once.
    destruct (first_selected regex ls) as [first|]; [|done].
    by rewrite bulk_hdf5_to_csv_unfold, Hls.
  - intros v ls o' w. apply bulk_loop_keeps_name.
  - intros ls o' w. apply bulk_loop_name_of_first.
  - intros pre filename rest first o1 v1 Hls Hfirst Hskip Hpre.
    pose proof (bulk_loop_name_of_first _ _ _ _ Hpre) as Hv1.
    split; [done|].
    rewrite first_selected_app in Hfirst by done.
    assert (default (default_var_name filename) v1 = default_var_name first)
      as Hname.
    { rewrite Hv1. injection Hfirst as <-.
      by destruct (first_selected regex pre). }
    rewrite bulk_hdf5_to_csv_unfold, Hls. unfold io_bind at 1.
    rewrite (bulk_loop_app _ _ _ _ _ _ Hpre).
    cbn [bulk_loop]. unfold io_bind at 1. unfold bulk_step. rewrite Hskip.
    assert (match v1 with
            | Some v => v
            | None => default_var_name filename
            end = default_var_name first) as ->
      by (by destruct v1).
    destruct (h5py_File env (PyStr.path_join path filename)) as [[]|f];
      try done.
    destruct (f !! default_var_name first); done.
Qed.

(** C6. In a batch, when the container of a selected file cannot be opened
    ([IOError]), one line goes to the diagnostic stream, no file is
    written for it and the loop goes on with the rest of the listing; when
    the container opens and lacks the variable, the exception leaves the
    batch at once and the rest of the listing is not visited. *)
Theorem bulk_failure_isolation var_name pre filename rest o o1 v1 :
  os_listdir env path = inr (pre ++ filename :: rest) →
  bulk_loop env path regex var_name pre o = (o1, inr v1) →
  skipped regex filename = false →
  (h5py_File env (PyStr.path_join path filename) = inl IOError →
     bulk_hdf5_to_csv env path var_name regex o
       = (bulk_loop env path regex
            (Some (default (default_var_name filename) v1)) rest ;;io
          io_ret ())
           (mk_out
              (stderr o1 ++ ["IOError encountered for " +:+ path +:+ PyStr.newline])
              (files o1)))
  ∧ (∀ f : container V,
       h5py_File env (PyStr.path_join path filename) = inr f →
       f !! default (default_var_name filename) v1 = None →
       bulk_hdf5_to_csv env path var_name regex o = (o1, inl TypeError)).
Proof.
  intros Hls Hpre Hskip.
  assert (bulk_hdf5_to_csv env path var_name regex o
            = (bulk_loop env path regex v1 (filename :: rest) ;;io io_ret ()) o1)
    as ->.
  { rewrite bulk_hdf5_to_csv_unfold, Hls. unfold io_bind.
    by rewrite (bulk_loop_app _ _ _ _ _ _ Hpre). }
  cbn [bulk_loop]. unfold io_bind at 1 3. unfold io_bind at 1 3.
  unfold bulk_step. rewrite Hskip.
  split.
  - intros ->. by destruct v1.
  - intros f -> Hvar. destruct v1 as [v|]; simpl in *; by rewrite Hvar.
Qed.

End Batch.

(** ** The example of the specification, and the claims at concrete inputs *)

Section Examples.
Import Datetime Pandas.

(** The calendar model against values computed by Python. *)
Example ymd2ord_max : ymd2ord 9999 12 31 = MAXORDINAL.
Proof. reflexivity. Qed.

Example ord2ymd_epoch : ord2ymd 731571 = (2003, 12, 22)%Z.
Proof. reflexivity. Qed.

Example add_over_leap_day :
  add_relativedelta (mk_datetime 2004 2 28 21 0 0 0) (relativedelta_hours 3)
    = inr (mk_datetime 2004 2 29 0 0 0 0).
Proof. reflexivity. Qed.

Example add_past_max :
  add_relativedelta (mk_datetime 9999 12 31 21 0 0 0) (relativedelta_hours 3)
    = inl OverflowError.
Proof. reflexivity. Qed.

Example str_with_microseconds :
  Datetime.str (mk_datetime 2003 12 22 3 0 0 15) = "2003-12-22 03:00:00.000015".
Proof. reflexivity. Qed.

(** C1, the claim as stated fails: the labels of the example are not the
    ['T']-separated ones. *)
Lemma example_labels_not_T_separated :
  ∃ cols, column_headers 5 (mk_datetime 2003 12 22 3 0 0 0) = inr cols
    ∧ cols ≠ ["lng"; "lat"; "2003-12-22T03:00:00"; "2003-12-22T06:00:00";
              "2003-12-22T09:00:00"].
Proof. eexists. split; [vm_compute; reflexivity|]. discriminate. Qed.

(** C1, as the code has it. For the matrix [[-166.5, 65.5, 1.0, 2.0, 3.0]]
    with the epoch 2003-12-22 03:00 and the step of three hours, the
    labels are ["lng"], ["lat"] and the three timestamps in the form of
    [str(datetime)], date and time separated by a space, and the indexed
    table has the one entry (-166.5, 65.5) with the values 1.0, 2.0, 3.0
    under the three timestamps. *)
Theorem example_pipeline :
  column_headers (shape1 ex_matrix) (mk_datetime 2003 12 22 3 0 0 0)
    = inr ["lng"; "lat"; "2003-12-22 03:00:00"; "2003-12-22 06:00:00";
           "2003-12-22 09:00:00"]
  ∧ hdf5_to_dataframe ex_env "flux.h5" (Some "flux") None
      (Some (mk_datetime 2003 12 22 3 0 0 0))
    = inr (mk_frame [((-166.5)%float, 65.5%float)]
             ["2003-12-22 03:00:00"; "2003-12-22 06:00:00";
              "2003-12-22 09:00:00"]
             [[1.0%float; 2.0%float; 3.0%float]]).
Proof. split; vm_compute; reflexivity. Qed.

(** The same table with no name and no epoch given: the name comes from
    the file name, the epoch is the default one. *)
Example example_pipeline_defaults :
  hdf5_to_dataframe ex_env "flux.h5" None None None
    = hdf5_to_dataframe ex_env "flux.h5" (Some "flux") None
        (Some (mk_datetime 2003 12 22 3 0 0 0)).
Proof. vm_compute. reflexivity. Qed.

(** The cut to one time step. *)
Example example_pipeline_limit :
  hdf5_to_dataframe ex_env "flux.h5" None (Some 1%Z) None
    = inr (mk_frame [((-166.5)%float, 65.5%float)] ["2003-12-22 03:00:00"]
             [[1.0%float]]).
Proof. vm_compute. reflexivity. Qed.

(** C2. For a path with a directory the code keeps the directory in the
    name, where the specification strips it; on a bare file name the two
    agree. *)
Theorem default_var_name_keeps_directory :
  default_var_name "/data/Month_Uncert1.mat" = "/data/Month_Uncert"
  ∧ spec_var_name "/data/Month_Uncert1.mat" = "Month_Uncert"
  ∧ default_var_name "Month_Uncert1.mat" = spec_var_name "Month_Uncert1.mat".
Proof. repeat split; vm_compute; reflexivity. Qed.

(** The path that the comment of the batch function gives as its example
    loses its file name altogether. *)
Example default_var_name_dotted_directory :
  default_var_name
    "/ws4/idata/fluxvis/casa_gfed_inversion_results/1.zerofull_casa_1pm_10twr/Month_Uncert1.mat"
    = "/ws4/idata/fluxvis/casa_gfed_inversion_results/".
Proof. vm_compute. reflexivity. Qed.

(** C3, the claim as stated fails: a matrix of one column, and one of no
    column, get two labels. *)
Lemma column_headers_short_matrix :
  (∃ cols, column_headers 1 default_dt = inr cols ∧ length cols ≠ 1)
  ∧ (∃ cols, column_headers 0 default_dt = inr cols ∧ length cols ≠ 0).
Proof. split; eexists; (split; [vm_compute; reflexivity|]); discriminate. Qed.

(** The frame constructor then refuses the short matrix. *)
Example short_matrix_refused :
  DataFrame_with_columns (mk_ndarray 1 [[1.0%float]]) ["lng"; "lat"]
    = inl ValueError.
Proof. reflexivity. Qed.

(** A time step past the year 9999 leaves the labeler with the overflow. *)
Example column_headers_overflow :
  column_headers 4 (mk_datetime 9999 12 31 21 0 0 0) = inl OverflowError.
Proof. vm_compute. reflexivity. Qed.

Lemma column_headers_spec_witness :
  ∃ cols, column_headers 5 default_dt = inr cols
    ∧ length cols = Nat.max 2 5
    ∧ take 2 cols = ["lng"; "lat"]
    ∧ ∀ i : nat, i < 5 - 2 →
        ∃ t, add_relativedelta default_dt
               (relativedelta_hours (3 * Z.of_nat i)) = inr t
             ∧ valid t
             ∧ us_of t = (us_of default_dt + hours_us (3 * Z.of_nat i))%Z
             ∧ cols !! (2 + i) = Some (Datetime.str t).
Proof.
  apply (column_headers_spec 5 default_dt);
    [reflexivity | intros _; eexists; vm_compute; reflexivity].
Defined.


Lemma mat_to_dataframe_indexed_witness :
  ∃ dfm cols,
    mat_to_dataframe ex_env "flux.mat" "flux" None None = inr dfm
    ∧ column_headers (shape1 ex_matrix) (default default_dt None) = inr cols
    ∧ columns dfm = drop 2 cols
    ∧ length (columns dfm) = shape1 ex_matrix - 2
    ∧ length (index dfm) = shape0 ex_matrix
    ∧ (∀ (r : nat) (row : list float),
         arr_rows ex_matrix !! r = Some row →
         ∃ x y, row !! 0 = Some x ∧ row !! 1 = Some y
                ∧ index dfm !! r = Some (x, y)
                ∧ values dfm !! r = Some (drop 2 row)
                ∧ length (drop 2 row) = shape1 ex_matrix - 2)
    ∧ (∀ key vs vs',
         (key, vs) ∈ zip (index dfm) (values dfm) →
         (key, vs') ∈ zip (index dfm) (values dfm) → vs = vs').
Proof.
  apply (mat_to_dataframe_indexed ex_env "flux.mat" "flux" None
           ex_container ex_matrix);
    [ reflexivity | vm_compute; reflexivity | repeat constructor
    | simpl; lia | reflexivity
    | intros _; eexists; vm_compute; reflexivity
    | apply NoDup_singleton ].
Defined.

Lemma to_csv_transposed_witness :
  ∃ header data,
    to_csv ex_frame "out.csv" ex_out
      = (mk_out (stderr ex_out)
           (files ex_out ++ [("out.csv", CsvFile (header :: data))]),
         inr ())
    ∧ header = CellBlank :: (CellKey <$> index ex_frame)
    ∧ length data = length (columns ex_frame)
    ∧ ∀ (t : nat) (timestamp : string),
        columns ex_frame !! t = Some timestamp →
        ∃ vs, data !! t = Some (CellStr timestamp :: (CellValue <$> vs))
              ∧ length vs = length (index ex_frame)
              ∧ ∀ (k : nat) (row : list float),
                  values ex_frame !! k = Some row →
                  ∃ v, row !! t = Some v ∧ vs !! k = Some v.
Proof.
  apply (to_csv_transposed ex_frame "out.csv" ex_out).
  split; [reflexivity|repeat constructor].
Defined.

(** The file that [to_csv] writes for the two-cell table. *)
Example to_csv_example :
  to_csv ex_frame "out.csv" ex_out
    = (mk_out []
         [("out.csv",
           CsvFile
             [[CellBlank; CellKey ((-166.5)%float, 65.5%float);
               CellKey ((-165.5)%float, 65.5%float)];
              [CellStr "2003-12-22 03:00:00"; CellValue 1.0%float;
               CellValue 4.0%float];
              [CellStr "2003-12-22 06:00:00"; CellValue 2.0%float;
               CellValue 5.0%float];
              [CellStr "2003-12-22 09:00:00"; CellValue 3.0%float;
               CellValue 6.0%float]])],
       inr ()).
Proof. reflexivity. Qed.

Lemma to_json_shape_witness :
  ∃ collection,
    to_json ex_frame "out.json" ex_out
      = (mk_out (stderr ex_out)
           (files ex_out ++ [("out.json", JsonFile (JArr collection))]),
         inr ())
    ∧ length collection = length (columns ex_frame)
    ∧ ∀ (t : nat) (timestamp : string),
        columns ex_frame !! t = Some timestamp →
        ∃ records,
          collection !! t
            = Some (JObj [("timestamp", JStr timestamp);
                          ("features", JArr [JArr records])])
          ∧ length records = length (index ex_frame)
          ∧ ∀ (k : nat) (key : float * float) (row : list float),
              index ex_frame !! k = Some key →
              values ex_frame !! k = Some row →
              ∃ v, row !! t = Some v
                   ∧ records !! k = Some (point_record key v).
Proof.
  apply (to_json_shape ex_frame "out.json" ex_out).
  split; [reflexivity|repeat constructor].
Defined.

Lemma to_geojson_shape_witness :
  ∃ features,
    to_geojson ex_frame "out.json" ex_out
      = (mk_out (stderr ex_out)
           (files ex_out ++ [("out.json",
              JsonFile (JObj [("type", JStr "FeatureCollection");
                              ("features", JArr features)]))]),
         inr ())
    ∧ length features = length (columns ex_frame)
    ∧ ∀ (t : nat) (timestamp : string),
        columns ex_frame !! t = Some timestamp →
        ∃ points,
          features !! t
            = Some (JObj [("type", JStr "FeatureCollection");
                          ("properties", JObj [("timestamp", JStr timestamp)]);
                          ("features", JArr points)])
          ∧ length points = length (index ex_frame)
          ∧ ∀ (k : nat) (key : float * float) (row : list float),
              index ex_frame !! k = Some key →
              values ex_frame !! k = Some row →
              ∃ v, row !! t = Some v
                   ∧ points !! k = Some (point_feature key v).
Proof.
  apply (to_geojson_shape ex_frame "out.json" ex_out).
  split; [reflexivity|repeat constructor].
Defined.

(** The diagnostic line of the batch in the directory [runs]. *)
Definition ex_skip_line : string :=
  "IOError encountered for runs" +:+ PyStr.newline.

(** In [runs], without a name: [flux1.mat] cannot be opened and is passed
    over with one diagnostic line, the name [flux] derived from it stays,
    and [other2.mat], which has no such variable, ends the batch before
    [flux3.mat] is visited. *)
Lemma bulk_failure_isolation_witness :
  bulk_hdf5_to_csv ex_env "runs" None (Some ex_regex) ex_out
    = (bulk_loop ex_env "runs" (Some ex_regex)
         (Some (default (default_var_name "flux1.mat") None))
         ["other2.mat"; "flux3.mat"] ;;io
       io_ret ())
        (mk_out (stderr ex_out ++ [ex_skip_line]) (files ex_out))
  ∧ bulk_hdf5_to_csv ex_env "runs" None (Some ex_regex) ex_out
    = (mk_out [ex_skip_line] [], inl TypeError).
Proof.
  split.
  - apply (proj1 (bulk_failure_isolation ex_env "runs" (Some ex_regex) None
                    ["notes.txt"] "flux1.mat" ["other2.mat"; "flux3.mat"]
                    ex_out ex_out None eq_refl eq_refl eq_refl)).
    reflexivity.
  - apply (proj2 (bulk_failure_isolation ex_env "runs" (Some ex_regex) None
                    ["notes.txt"; "flux1.mat"] "other2.mat" ["flux3.mat"]
                    ex_out (mk_out [ex_skip_line] []) (Some "flux")
                    eq_refl eq_refl eq_refl) ex_other);
      vm_compute; reflexivity.
Defined.

(** With the name [other] given, the same directory yields one diagnostic
    line and the CSV of [other2.mat]; the batch then ends at [flux3.mat],
    which has no variable of that name. *)
Example bulk_named_run :
  bulk_hdf5_to_csv ex_env "runs" (Some "other") (Some ex_regex) ex_out
    = (mk_out [ex_skip_line]
         [("runs/other2.csv",
           CsvFile (csv_rows (DataFrame_of_array ex_matrix)))],
       inl TypeError).
Proof. vm_compute. reflexivity. Qed.

(** Without a name, the directory [runs] is read under [flux], the name of
    its first selected file [flux1.mat], although that file cannot be
    opened: [other2.mat], whose own name would give [other] and which holds
    a variable [other], is asked for [flux] and the batch ends there. *)
Lemma bulk_var_name_derived_once_witness :
  (default_var_name "flux1.mat" = "flux"
   ∧ default_var_name "other2.mat" = "other")
  ∧ Some "flux"
    = default_var_name
        <$> first_selected (Some ex_regex) ["notes.txt"; "flux1.mat"]
  ∧ bulk_hdf5_to_csv ex_env "runs" None (Some ex_regex) ex_out
    = (mk_out [ex_skip_line] [], inl TypeError).
Proof.
  split; [split; reflexivity|].
  apply (proj2 (proj2 (proj2
           (bulk_var_name_derived_once ex_env "runs" (Some ex_regex) ex_out)))
           ["notes.txt"; "flux1.mat"] "other2.mat" ["flux3.mat"] "flux1.mat"
           (mk_out [ex_skip_line] []) (Some "flux")
           eq_refl eq_refl eq_refl eq_refl).
Defined.

End Examples.

(** * Properties beyond the claims *)

(** ** The derived variable name *)

Section StringFacts.
Import PyStr.

Lemma rev_app_spec (s acc : string) :
  String.rev_app s acc = String.rev s +:+ acc.
Proof.
  revert acc. induction s as [|a s IH]; intros acc; [done|].
  unfold String.rev. cbn [String.rev_app].
  rewrite (IH (String a acc)), (IH (String a "")).
  by rewrite app_assoc_s, app_single.
Qed.

Lemma string_rev_cons (a : ascii) (s : string) :
  String.rev (String a s) = String.rev s +:+ String a "".
Proof. unfold String.rev at 1. cbn [String.rev_app]. apply rev_app_spec. Qed.

Lemma string_rev_app_distr (s t : string) :
  String.rev (s +:+ t) = String.rev t +:+ String.rev s.
Proof.
  induction s as [|a s IH].
  - change ("" +:+ t) with t. by rewrite app_empty_r.
  - rewrite app_cons, !string_rev_cons, IH. by rewrite app_assoc_s.
Qed.

Lemma string_rev_involutive (s : string) : String.rev (String.rev s) = s.
Proof.
  induction s as [|a s IH]; [done|].
  rewrite string_rev_cons, string_rev_app_distr, IH. done.
Qed.

Lemma contains_rev (c : ascii) (s : string) :
  contains c (String.rev s) = contains c s.
Proof.
  induction s as [|a s IH]; [done|].
  rewrite string_rev_cons, contains_app, IH. cbn [contains].
  rewrite orb_false_r. apply orb_comm.
Qed.

Lemma all_of_app (chars s t : string) :
  all_of chars (s +:+ t) = all_of chars s && all_of chars t.
Proof.
  induction s as [|a s IH]; [done|].
  rewrite app_cons. cbn [all_of]. by rewrite IH, andb_assoc.
Qed.

Lemma all_of_rev (chars s : string) :
  all_of chars (String.rev s) = all_of chars s.
Proof.
  induction s as [|a s IH]; [done|].
  rewrite string_rev_cons, all_of_app, IH. cbn [all_of].
  rewrite andb_true_r. apply andb_comm.
Qed.

(** [lstrip] takes a run of [chars] off the front and nothing else. *)
Lemma lstrip_decompose (chars s : string) :
  ∃ d, s = d +:+ lstrip chars s ∧ all_of chars d = true.
Proof.
  induction s as [|a s (d & Hd & Hall)]; [by exists ""|].
  cbn [lstrip]. destruct (contains a chars) eqn:Ha.
  - exists (String a d). rewrite app_cons, <- Hd. split; [done|].
    cbn [all_of]. by rewrite Ha.
  - by exists "".
Qed.

Lemma lstrip_all_of (chars d s : string) :
  all_of chars d = true → lstrip chars (d +:+ s) = lstrip chars s.
Proof.
  induction d as [|a d IH]; [done|].
  cbn [all_of]. intros [Ha Hd]%andb_prop.
  rewrite app_cons. cbn [lstrip]. rewrite Ha. by apply IH.
Qed.

Lemma lstrip_all_of_empty (chars d : string) :
  all_of chars d = true → lstrip chars d = "".
Proof.
  intros Hd. rewrite <- (app_empty_r d). by rewrite lstrip_all_of.
Qed.


(** What [lstrip] returns is empty or starts outside [chars]. *)
Lemma lstrip_head (chars s : string) : head_outside chars (lstrip chars s).
Proof.
  induction s as [|a s IH]; [done|].
  cbn [lstrip]. destruct (contains a chars) eqn:Ha; [done|]. exact Ha.
Qed.

Lemma lstrip_fixed (chars s : string) :
  head_outside chars s → lstrip chars s = s.
Proof. destruct s as [|a s]; [done|]. cbn. by intros ->. Qed.

Lemma lstrip_app_outside (chars s t : string) :
  lstrip chars s ≠ "" → lstrip chars (s +:+ t) = lstrip chars s +:+ t.
Proof.
  induction s as [|a s IH]; [done|].
  rewrite app_cons. cbn [lstrip]. destruct (contains a chars); [exact IH|].
  by rewrite app_cons.
Qed.

Lemma rstrip_decompose (chars s : string) :
  ∃ d, s = rstrip chars s +:+ d ∧ all_of chars d = true.
Proof.
  destruct (lstrip_decompose chars (String.rev s)) as (d & Hd & Hall).
  exists (String.rev d). split; [|by rewrite all_of_rev].
  unfold rstrip. rewrite <- string_rev_app_distr, <- Hd. by rewrite string_rev_involutive.
Qed.

Lemma rstrip_all_of (chars s d : string) :
  all_of chars d = true → rstrip chars (s +:+ d) = rstrip chars s.
Proof.
  intros Hd. unfold rstrip. rewrite string_rev_app_distr.
  by rewrite lstrip_all_of by (by rewrite all_of_rev).
Qed.

Lemma rstrip_idemp (chars s : string) :
  rstrip chars (rstrip chars s) = rstrip chars s.
Proof.
  unfold rstrip. rewrite string_rev_involutive.
  by rewrite (lstrip_fixed _ _ (lstrip_head chars (String.rev s))).
Qed.

Lemma rstrip_head (chars s : string) :
  head_outside chars s → head_outside chars (rstrip chars s).
Proof.
  intros Hs. destruct (rstrip_decompose chars s) as (d & Hd & _).
  destruct (rstrip chars s) as [|c r]; [done|].
  rewrite Hd in Hs. exact Hs.
Qed.

Lemma contains_lstrip (c : ascii) (chars s : string) :
  contains c s = false → contains c (lstrip chars s) = false.
Proof.
  intros Hs. destruct (lstrip_decompose chars s) as (d & Hd & _).
  rewrite Hd, contains_app in Hs. by apply orb_false_elim in Hs as [_ ?].
Qed.

Lemma contains_rstrip (c : ascii) (chars s : string) :
  contains c s = false → contains c (rstrip chars s) = false.
Proof.
  intros Hs. destruct (rstrip_decompose chars s) as (d & Hd & _).
  rewrite Hd, contains_app in Hs. by apply orb_false_elim in Hs as [? _].
Qed.

Lemma split_head_no_sep (sep : ascii) (s : string) :
  contains sep (split_head sep s) = false.
Proof.
  induction s as [|a s IH]; [done|].
  cbn [split_head]. destruct (Ascii.eqb a sep) eqn:Ha; [done|].
  cbn [contains]. by rewrite Ha, IH.
Qed.

Lemma split_head_fixed (sep : ascii) (s : string) :
  contains sep s = false → split_head sep s = s.
Proof.
  induction s as [|a s IH]; [done|].
  cbn [contains split_head]. intros [Ha Hs]%orb_false_elim.
  rewrite Ha. by rewrite IH.
Qed.

Lemma split_head_app (sep : ascii) (s t : string) :
  contains sep s = false →
  split_head sep (s +:+ String sep t) = s.
Proof.
  induction s as [|a s IH].
  - intros _. change ("" +:+ String sep t) with (String sep t).
    cbn [split_head]. by rewrite Ascii.eqb_refl.
  - cbn [contains]. intros [Ha Hs]%orb_false_elim.
    rewrite app_cons. cbn [split_head]. rewrite Ha. by rewrite IH.
Qed.

Lemma all_of_no_dot (d : string) :
  all_of "_- 0123456789" d = true → contains "." d = false.
Proof.
  induction d as [|a d IH]; [done|].
  cbn [all_of contains]. intros [Ha Hd]%andb_prop. rewrite (IH Hd).
  destruct (Ascii.eqb_spec a ".") as [->|]; [discriminate Ha|done].
Qed.

(** X1. The derived variable name holds no dot and neither starts nor ends
    with a digit, underscore, hyphen or space; deriving a name from it again
    gives the same name. *)
Theorem default_var_name_normal (name : string) :
  contains "." (default_var_name name) = false
  ∧ lstrip "_- 0123456789" (default_var_name name) = default_var_name name
  ∧ rstrip "_- 0123456789" (default_var_name name) = default_var_name name
  ∧ default_var_name (default_var_name name) = default_var_name name.
Proof.
  unfold default_var_name, strip.
  set (chars := "_- 0123456789"). set (stem := split_head "." name).
  assert (contains "." (rstrip chars (lstrip chars stem)) = false) as Hdot.
  { apply contains_rstrip, contains_lstrip, split_head_no_sep. }
  assert (lstrip chars (rstrip chars (lstrip chars stem))
          = rstrip chars (lstrip chars stem)) as Hl.
  { apply lstrip_fixed, rstrip_head, lstrip_head. }
  split; [exact Hdot|]. split; [exact Hl|]. split; [apply rstrip_idemp|].
  rewrite (split_head_fixed _ _ Hdot), Hl. apply rstrip_idemp.
Qed.

(** X2. The extension and a trailing run of digits, underscores, hyphens
    and spaces do not matter: a file named stem, run, dot, extension gets
    the name of the stem alone (so numbered siblings share one name). *)
Theorem default_var_name_siblings (stem run ext : string) :
  contains "." stem = false →
  all_of "_- 0123456789" run = true →
  default_var_name (stem +:+ run +:+ String "." ext) = default_var_name stem.
Proof.
  intros Hstem Hrun. unfold default_var_name.
  rewrite <- app_assoc_s, split_head_app, (split_head_fixed _ stem Hstem).
  2: { rewrite contains_app, Hstem. by rewrite all_of_no_dot. }
  unfold strip. set (chars := "_- 0123456789") in *.
  destruct (decide (lstrip chars stem = "")) as [Hempty|Hne].
  - destruct (lstrip_decompose chars stem) as (d & Hd & Hall).
    rewrite Hempty, app_empty_r in Hd. subst d.
    rewrite lstrip_all_of, Hempty by done.
    by rewrite lstrip_all_of_empty.
  - rewrite lstrip_app_outside by done. by apply rstrip_all_of.
Qed.

End StringFacts.

(** ** The labels *)

Section LabelFacts.
Import Datetime Pandas.

(** Two datetimes with the same text are the same datetime. *)
Lemma str_inj (a b : datetime) :
  valid a → valid b → Datetime.str a = Datetime.str b → a = b.
Proof.
  intros Ha Hb Heq. apply parse_str in Ha, Hb. rewrite Heq in Ha. congruence.
Qed.

Lemma column_headers_lookup (C : nat) (dt : datetime) (stamps : list string)
    (i : nat) (s : string) :
  valid dt →
  column_headers C dt = inr ("lng" :: "lat" :: stamps) →
  stamps !! i = Some s →
  ∃ t, s = Datetime.str t ∧ valid t
       ∧ us_of t = (us_of dt + hours_us (3 * Z.of_nat i))%Z.
Proof.
  intros Hv (stamps' & [= <-] & H2)%column_headers_inr Hs.
  destruct (Forall2_lookup_r _ _ _ _ _ H2 Hs) as (j & Hj & Hstr).
  assert (i < Z.to_nat (Z.of_nat C - 2)) as Hi.
  { rewrite <- range_length. by eapply lookup_lt_Some. }
  rewrite range_lookup in Hj by done. injection Hj as <-.
  apply fmap_str_inr in Hstr as (t & Ht & ->).
  apply add_hours_inv in Ht as (? & ? & _); [|done|lia]. by exists t.
Qed.

(** X3. The labels that the labeler returns are pairwise distinct. *)
Theorem column_headers_NoDup (C : nat) (dt : datetime) (cols : list string) :
  valid dt → column_headers C dt = inr cols → NoDup cols.
Proof.
  intros Hv Hcols.
  destruct (column_headers_stamps _ _ _ Hcols) as (stamps & -> & _ & Hs).
  rewrite Forall_forall in Hs.
  apply NoDup_cons. split.
  { intros [[=]|Hin]%elem_of_cons. by destruct (Hs _ Hin). }
  apply NoDup_cons. split.
  { intros Hin. by destruct (Hs _ Hin). }
  apply NoDup_alt. intros i j s Hi Hj.
  destruct (column_headers_lookup C dt stamps i s Hv Hcols Hi) as (ti & -> & Hvi & Hui).
  destruct (column_headers_lookup C dt stamps j _ Hv Hcols Hj) as (tj & Heq & Hvj & Huj).
  apply str_inj in Heq; [|done..]. subst tj.
  unfold hours_us, US_PER_SECOND in *. lia.
Qed.

(** The labeler fails only by the overflow, and then the last time step
    cannot be represented. *)
Lemma result_mapM_inl {A B} (f : A → result B) (l : list A) (e : exn) :
  result_mapM f l = inl e → ∃ x, x ∈ l ∧ f x = inl e.
Proof.
  induction l as [|x l IH]; [done|]. simpl.
  destruct (f x) as [e'|y] eqn:Hfx.
  - intros [= ->]. exists x. split; [left|done].
  - destruct (result_mapM f l) as [e'|ys]; [|done].
    intros [= ->]. destruct (IH eq_refl) as (x' & Hin & Hx').
    exists x'. split; [by right|done].
Qed.

Lemma column_headers_inl (C : nat) (dt : datetime) (e : exn) :
  valid dt → column_headers C dt = inl e →
  e = OverflowError ∧ ¬ last_step_representable dt C.
Proof.
  intros Hv Hcols. split.
  - unfold column_headers in Hcols.
    destruct (result_mapM _ _) as [e'|stamps] eqn:Hm; [|done].
    injection Hcols as ->.
    apply result_mapM_inl in Hm as (j & Hj%elem_of_range & Hfj).
    destruct (Z_le_gt_dec ((us_of dt + hours_us (3 * j)) / US_PER_DAY) MAXORDINAL)
      as [Hle|Hgt].
    + destruct (add_hours_ok dt (3 * j) Hv ltac:(lia) Hle) as (t & Ht & _).
      rewrite Ht in Hfj. discriminate.
    + rewrite add_hours_overflow in Hfj by (done || lia). by injection Hfj.
  - intros Hlast. destruct (column_headers_total C dt Hv Hlast) as [cols Hc].
    congruence.
Qed.

Lemma column_headers_inr_representable (C : nat) (dt : datetime) cols :
  column_headers C dt = inr cols → last_step_representable dt C.
Proof.
  intros (stamps & -> & H2)%column_headers_inr HC.
  destruct (Forall2_lookup_l _ _ _ (C - 3) _ H2
              (range_lookup (Z.of_nat C - 2) (C - 3) ltac:(lia)))
    as (s & _ & (t & Ht & _)%fmap_str_inr).
  exists t. rewrite <- Ht. do 3 f_equal. lia.
Qed.

End LabelFacts.

Section StepFacts.
Import Datetime Pandas.

(** Whole hours later, the minute, the second and the microsecond are the
    same and the hour has moved on modulo 24. *)
Lemma hours_later_fields (dt t : datetime) (h : Z) :
  valid dt → valid t →
  us_of t = (us_of dt + hours_us h)%Z →
  minute t = minute dt ∧ second t = second dt
  ∧ microsecond t = microsecond dt
  ∧ hour t = ((hour dt + h) mod 24)%Z.
Proof.
  intros Hv Ht Hus.
  pose proof (valid_fields dt Hv) as (_ & _ & _ & Hh & Hmi & Hs & Hu).
  pose proof (valid_fields t Ht) as (_ & _ & _ & Hh' & Hmi' & Hs' & Hu').
  unfold us_of, hours_us, US_PER_SECOND in Hus.
  assert (minute t = minute dt ∧ second t = second dt
          ∧ microsecond t = microsecond dt) as (Hm & Hsec & Hmic) by lia.
  split; [done|]. split; [done|]. split; [done|].
  apply (Z.mod_unique _ 24 (toordinal t - toordinal dt)); lia.
Qed.

(** X4. Every timestamp label stands for a datetime with the minute, the
    second and the microsecond of the epoch, and with the hour of the epoch
    moved on by three hours per time step, modulo 24. *)
Theorem labels_keep_minutes (C : nat) (dt : datetime) (cols : list string)
    (i : nat) (s : string) :
  valid dt → column_headers C dt = inr cols → cols !! (2 + i) = Some s →
  ∃ t, s = Datetime.str t
    ∧ minute t = minute dt ∧ second t = second dt
    ∧ microsecond t = microsecond dt
    ∧ hour t = ((hour dt + 3 * Z.of_nat i) mod 24)%Z.
Proof.
  intros Hv Hcols Hs.
  destruct (column_headers_stamps _ _ _ Hcols) as (stamps & -> & _ & _).
  destruct (column_headers_lookup C dt stamps i s Hv Hcols Hs)
    as (t & -> & Ht & Hus).
  exists t. split; [done|]. by apply hours_later_fields.
Qed.

End StepFacts.

(** ** The cut to a number of time steps *)

Section SelectFacts.
Context {V : Type}.
Import Pandas.

(** Among distinct labels, a label is found where it stands. *)
Lemma get_loc_lookup (cols : list string) (i : nat) (c : string) :
  NoDup cols → cols !! i = Some c → get_loc c cols = inr i.
Proof.
  intros Hnd Hi. unfold get_loc.
  destruct (list_find (λ c', c' = c) cols) as [[j c']|] eqn:Hfind.
  - apply list_find_Some in Hfind as (Hj & -> & _).
    by rewrite (NoDup_lookup _ _ _ _ Hnd Hj Hi).
  - apply list_find_None in Hfind. rewrite Forall_forall in Hfind.
    destruct (Hfind c); [by eapply list_elem_of_lookup_2|done].
Qed.

Lemma get_loc_missing (cols : list string) (c : string) :
  c ∉ cols → get_loc c cols = inl KeyError.
Proof.
  intros Hc. unfold get_loc.
  destruct (list_find (λ c', c' = c) cols) as [[j c']|] eqn:Hfind; [|done].
  apply list_find_Some in Hfind as (Hj & -> & _).
  destruct Hc. by eapply list_elem_of_lookup_2.
Qed.

Lemma get_loc_bound (cols : list string) (c : string) (i : nat) :
  get_loc c cols = inr i → i < length cols.
Proof.
  unfold get_loc.
  destruct (list_find (λ c', c' = c) cols) as [[j c']|] eqn:Hfind; [|done].
  intros [= <-]. apply list_find_Some in Hfind as (Hj & _).
  by eapply lookup_lt_Some.
Qed.

Lemma get_loc_prefix (cols : list string) (n : nat) :
  NoDup cols → n ≤ length cols →
  result_mapM (λ c, get_loc c cols) (take n cols) = inr (seq 0 n).
Proof.
  intros Hnd Hn. apply result_mapM_inr.
  apply Forall2_same_length_lookup_2.
  - rewrite length_take, length_seq. lia.
  - intros i c j Hc Hj. apply lookup_seq in Hj as [-> _].
    apply lookup_take_Some in Hc as [Hc _]. by apply get_loc_lookup.
Qed.

Lemma take_positions_prefix (n : nat) (row : list V) :
  n ≤ length row → take_positions (seq 0 n) row = take n row.
Proof.
  unfold take_positions. revert row.
  induction n as [|n IH]; intros row Hn; [done|].
  destruct row as [|x row]; [simpl in Hn; lia|].
  cbn [seq omap list_omap lookup list_lookup take]. rewrite <- fmap_S_seq.
  f_equal. rewrite <- (IH row) by (simpl in Hn; lia).
  clear. induction (seq 0 n) as [|p ps IHp]; [done|].
  cbn. by rewrite IHp.
Qed.

(** [df.ix[:, cols[0:n]]] on a frame with distinct labels: the first [n]
    columns. *)
Lemma ix_columns_prefix {I} (df : DataFrame I string V) (n : nat) :
  NoDup (columns df) → n ≤ length (columns df) →
  Forall (λ row, length row = length (columns df)) (values df) →
  ix_columns (take n (columns df)) df
    = inr (mk_frame (index df) (take n (columns df)) (take n <$> values df)).
Proof.
  intros Hnd Hn Hrows. unfold ix_columns.
  rewrite get_loc_prefix by done. cbn [mbind result_bind mret result_ret].
  do 2 f_equal. apply Forall_fmap_ext_1.
  eapply Forall_impl; [exact Hrows|]. simpl. intros row Hlen.
  apply take_positions_prefix. lia.
Qed.

Lemma row_key_take (n : nat) (row : list V) :
  2 ≤ n → row_key 0 1 (take n row) = row_key 0 1 row.
Proof.
  intros Hn. unfold row_key.
  by rewrite !lookup_take_lt by lia.
Qed.

Lemma omap_row_key_take (n : nat) (rows : list (list V)) :
  2 ≤ n → omap (row_key 0 1) (take n <$> rows) = omap (row_key 0 1) rows.
Proof.
  intros Hn. induction rows as [|row rows IH]; [done|].
  cbn [fmap list_fmap omap list_omap]. by rewrite row_key_take, IH.
Qed.


(** [l[0:stop]] as a prefix. *)
Lemma slice_to_take {A} (stop : Z) (l : list A) :
  slice_to stop l = take (slice_len stop (length l)) l.
Proof. reflexivity. Qed.

Lemma slice_len_le (stop : Z) (len : nat) : slice_len stop len ≤ len.
Proof. unfold slice_len. destruct (stop <? 0)%Z eqn:?; lia. Qed.

(** Lines 65-72 on a matrix whose labels are the two coordinate labels and
    [C - 2] distinct others. *)
Lemma frame_tail (a : ndarray V) (stamps : list string) (limit : option Z) :
  ndarray_wf a → shape1 a = 2 + length stamps →
  NoDup ("lng" :: "lat" :: stamps) →
  (DataFrame_with_columns a ("lng" :: "lat" :: stamps)
     ≫= limit_and_index limit ("lng" :: "lat" :: stamps))
  = match limit with
    | None =>
        inr (mk_frame (omap (row_key 0 1) (arr_rows a)) stamps
                      (drop 2 <$> arr_rows a))
    | Some l =>
        let n := slice_len (l + 2) (shape1 a) in
        if decide (2 ≤ n) then
          inr (mk_frame (omap (row_key 0 1) (arr_rows a))
                        (take (n - 2) stamps)
                        ((λ row, take (n - 2) (drop 2 row)) <$> arr_rows a))
        else inl KeyError
    end.
Proof.
  intros Hwf HC Hnd.
  assert (Forall (λ s, s ≠ "lng" ∧ s ≠ "lat") stamps) as Hs.
  { apply Forall_forall. intros s Hin.
    apply NoDup_cons in Hnd as [Hlng Hnd]. apply NoDup_cons in Hnd as [Hlat _].
    split; intros ->; [apply Hlng; by right|by apply Hlat]. }
  assert (Forall (λ row, length row = 2 + length stamps) (arr_rows a)) as Hrows.
  { eapply Forall_impl; [exact Hwf|]. simpl. intros row ->. lia. }
  unfold DataFrame_with_columns.
  rewrite bool_decide_eq_true_2 by (simpl; lia).
  cbn [mbind result_bind]. unfold limit_and_index.
  destruct limit as [l|]; cbn [mbind result_bind mret result_ret].
  2: { apply (set_index_coordinates stamps (arr_rows a) _ Hs Hrows). }
  rewrite slice_to_take.
  replace (length ("lng" :: "lat" :: stamps)) with (shape1 a) by (simpl; lia).
  pose proof (slice_len_le (l + 2) (shape1 a)) as Hle.
  set (n := slice_len (l + 2) (shape1 a)) in *. cbv zeta.
  pose proof (ix_columns_prefix
                (mk_frame (seq 0 (shape0 a)) ("lng" :: "lat" :: stamps) (arr_rows a))
                n Hnd ltac:(simpl; lia) Hrows) as Hix.
  cbn [columns values index] in Hix. rewrite Hix. clear Hix.
  cbn [mbind result_bind index columns values].
  destruct (decide (2 ≤ n)) as [Hn|Hn].
  - destruct n as [|[|n]]; [lia..|]. cbn [take].
    replace (S (S n) - 2) with n by lia.
    destruct (set_index_coordinates (take n stamps)
                (take (S (S n)) <$> arr_rows a) (seq 0 (shape0 a))) as [-> _].
    { by apply Forall_take. }
    { apply Forall_fmap. eapply Forall_impl; [exact Hrows|]. simpl.
      intros row Hlen. rewrite !length_take. lia. }
    rewrite omap_row_key_take by lia. do 2 f_equal.
    rewrite <- list_fmap_compose. apply list_fmap_ext. intros _ row _. simpl.
    by rewrite take_drop_commute.
  - unfold set_index. cbn [columns].
    destruct n as [|[|n]]; [| |lia]; cbn [take].
    + by rewrite (get_loc_missing [] "lng") by apply not_elem_of_nil.
    + rewrite (get_loc_lookup ["lng"] 0 "lng") by (by apply NoDup_singleton || done).
      cbn [mbind result_bind].
      rewrite (get_loc_missing ["lng"] "lat"); [done|].
      by intros [=]%list_elem_of_singleton.
Qed.

End SelectFacts.

(** ** The loaders *)

Section WfFacts.
Context {V : Type}.
Import Pandas.

Lemma omap_length_total {A B} (f : A → option B) (l : list A) :
  Forall (λ x, is_Some (f x)) l → length (omap f l) = length l.
Proof.
  induction 1 as [|x l [y Hy] _ IH]; [done|].
  cbn [omap list_omap]. rewrite Hy. simpl. by rewrite IH.
Qed.

Lemma drop_cells_length (k1 k2 : string) (cols : list string) (row : list V) :
  length row = length cols →
  length (drop_cells k1 k2 cols row) = length (drop_labels k1 k2 cols).
Proof.
  unfold drop_cells, drop_labels. revert row.
  induction cols as [|c cols IH]; intros [|x row] Hlen; try done.
  cbn [zip zip_with]. rewrite !filter_cons. cbn [fst].
  destruct (decide (c ≠ k1 ∧ c ≠ k2)); cbn [fmap list_fmap length];
    rewrite IH by (simpl in Hlen; lia); done.
Qed.

Lemma DataFrame_with_columns_wf (a : ndarray V) (cols : list string) df :
  ndarray_wf a → DataFrame_with_columns a cols = inr df → frame_wf df.
Proof.
  intros Hwf. unfold DataFrame_with_columns.
  destruct (bool_decide_reflect (length cols = shape1 a)) as [Hlen|]; [|done].
  intros [= <-]. split; cbn [index columns values].
  - by rewrite length_seq.
  - eapply Forall_impl; [exact Hwf|]. simpl. intros row ->. done.
Qed.

Lemma ix_columns_wf {I} (cols : list string) (df df' : DataFrame I string V) :
  frame_wf df → ix_columns cols df = inr df' → frame_wf df'.
Proof.
  intros [Hlen Hrows]. unfold ix_columns.
  destruct (result_mapM _ cols) as [e|ps] eqn:Hps; [done|].
  cbn [mbind result_bind mret result_ret]. intros [= <-].
  apply result_mapM_inr in Hps.
  split; cbn [index columns values].
  - by rewrite length_fmap.
  - apply Forall_fmap. eapply Forall_impl; [exact Hrows|]. simpl.
    intros row Hrow. unfold take_positions.
    rewrite omap_length_total; [by apply Forall2_length in Hps|].
    clear -Hps Hrow. induction Hps as [|c p ? ? Hp _ IH]; constructor; [|done].
    apply get_loc_bound in Hp. apply lookup_lt_is_Some_2. lia.
Qed.

Lemma set_index_wf {I} (k1 k2 : string) (df : DataFrame I string V) df' :
  frame_wf df → set_index k1 k2 df = inr df' → frame_wf df'.
Proof.
  intros [Hlen Hrows]. unfold set_index.
  destruct (get_loc k1 (columns df)) as [e|i] eqn:Hi; [done|].
  destruct (get_loc k2 (columns df)) as [e|j] eqn:Hj; [done|].
  cbn [mbind result_bind mret result_ret]. intros [= <-].
  apply get_loc_bound in Hi, Hj.
  split; cbn [index columns values].
  - rewrite length_fmap, omap_length_total; [done|].
    eapply Forall_impl; [exact Hrows|]. simpl. intros row Hrow.
    unfold row_key.
    destruct (lookup_lt_is_Some_2 row i ltac:(lia)) as [x ->].
    destruct (lookup_lt_is_Some_2 row j ltac:(lia)) as [y ->]. by eexists.
  - apply Forall_fmap. eapply Forall_impl; [exact Hrows|]. simpl.
    intros row Hrow. by apply drop_cells_length.
Qed.

Lemma limit_and_index_wf (limit : option Z) (cols : list string)
    (df : DataFrame nat string V) df' :
  frame_wf df → limit_and_index limit cols df = inr df' → frame_wf df'.
Proof.
  intros Hwf. unfold limit_and_index.
  destruct limit as [l|]; cbn [mbind result_bind mret result_ret].
  - destruct (ix_columns _ df) as [e|df1] eqn:Hix; [done|].
    cbn [mbind result_bind]. apply set_index_wf. by eapply ix_columns_wf.
  - by apply set_index_wf.
Qed.

Variable env : Env V.

(** What [hdf5_to_dataframe] does once the container is open and the
    variable found. *)
Lemma hdf5_to_dataframe_run (path : string) (var_name : option string)
    (limit : option Z) (dt : option Datetime.datetime)
    (f : container V) (a : ndarray V) :
  h5py_File env path = inr f →
  f !! default (default_var_name path) var_name = Some a →
  hdf5_to_dataframe env path var_name limit dt
    = cols ← column_headers (shape1 a) (default default_dt dt);
      DataFrame_with_columns a cols ≫= limit_and_index limit cols.
Proof.
  intros Hf Ha. unfold hdf5_to_dataframe. rewrite Hf.
  cbn [mbind result_bind]. unfold getitem.
  destruct var_name as [v|]; cbn [default from_option id] in Ha; by rewrite Ha.
Qed.

Lemma mat_to_dataframe_run (path var_name : string)
    (limit : option Z) (dt : option Datetime.datetime)
    (mat : container V) (a : ndarray V) :
  scipy_loadmat env path = inr mat →
  mat !! var_name = Some a →
  mat_to_dataframe env path var_name limit dt
    = cols ← column_headers (shape1 a) (default default_dt dt);
      DataFrame_with_columns a cols ≫= limit_and_index limit cols.
Proof.
  intros Hf Ha. unfold mat_to_dataframe. rewrite Hf.
  cbn [mbind result_bind]. unfold getitem. by rewrite Ha.
Qed.

(** The two loaders differ only in how the container is read and in the
    default of the variable name. *)
Theorem loaders_agree (path1 path2 var_name : string) (limit : option Z)
    (dt : option Datetime.datetime) (f : container V) :
  h5py_File env path1 = inr f → scipy_loadmat env path2 = inr f →
  hdf5_to_dataframe env path1 (Some var_name) limit dt
    = mat_to_dataframe env path2 var_name limit dt.
Proof.
  intros H1 H2. unfold hdf5_to_dataframe, mat_to_dataframe.
  by rewrite H1, H2.
Qed.

(** X9. Every table that [hdf5_to_dataframe] returns has one key per row and
    one value per timestamp label in every row. *)
Theorem hdf5_to_dataframe_wf (path : string) (var_name : option string)
    (limit : option Z) (dt : option Datetime.datetime) (f : container V) df :
  h5py_File env path = inr f →
  (∀ v a, f !! v = Some a → ndarray_wf a) →
  hdf5_to_dataframe env path var_name limit dt = inr df →
  frame_wf df.
Proof.
  intros Hf Hwf. unfold hdf5_to_dataframe. rewrite Hf.
  cbn [mbind result_bind]. unfold getitem.
  destruct (f !! _) as [a|] eqn:Ha; [|done].
  cbn [mbind result_bind].
  destruct (column_headers _ _) as [e|cols]; [done|]. cbn [mbind result_bind].
  destruct (DataFrame_with_columns a cols) as [e|df0] eqn:Hdf0; [done|].
  cbn [mbind result_bind]. apply limit_and_index_wf.
  eapply DataFrame_with_columns_wf; [by eapply Hwf|exact Hdf0].
Qed.

End WfFacts.

Section LoaderFacts.
Context {V : Type}.
Variable env : Env V.
Import Datetime Pandas.

Implicit Types (path : string) (var_name : option string)
  (dt : option datetime) (f : container V) (a : ndarray V).

Lemma slice_len_nonneg (stop : Z) (len : nat) :
  (0 ≤ stop)%Z → slice_len stop len = Z.to_nat (Z.min stop (Z.of_nat len)).
Proof. intros H. unfold slice_len. by rewrite (proj2 (Z.ltb_ge stop 0)). Qed.

Lemma slice_len_neg (stop : Z) (len : nat) :
  (stop < 0)%Z → slice_len stop len = Z.to_nat (Z.max 0 (stop + Z.of_nat len)).
Proof. intros H. unfold slice_len. by rewrite (proj2 (Z.ltb_lt stop 0)). Qed.

(** X5. The loader on a well-formed matrix with its two coordinate columns:
    a table exactly when the last time step can be represented, the
    overflow otherwise, whatever the limit. *)
Theorem hdf5_to_dataframe_returns path var_name dt f a :
  h5py_File env path = inr f →
  f !! default (default_var_name path) var_name = Some a →
  ndarray_wf a → 2 ≤ shape1 a →
  valid (default default_dt dt) →
  ((∃ df, hdf5_to_dataframe env path var_name None dt = inr df)
   ↔ last_step_representable (default default_dt dt) (shape1 a))
  ∧ (¬ last_step_representable (default default_dt dt) (shape1 a) →
     ∀ limit, hdf5_to_dataframe env path var_name limit dt = inl OverflowError).
Proof.
  intros Hf Ha Hwf HC Hv. split; [split|].
  - intros [df Hdf]. rewrite (hdf5_to_dataframe_run env _ _ _ _ f a Hf Ha) in Hdf.
    destruct (column_headers _ _) as [e|cols] eqn:Hcols; [done|].
    by eapply column_headers_inr_representable.
  - intros Hlast. rewrite (hdf5_to_dataframe_run env _ _ _ _ f a Hf Ha).
    destruct (column_headers_total _ _ Hv Hlast) as [cols Hcols].
    pose proof (column_headers_NoDup _ _ _ Hv Hcols) as Hnd.
    destruct (column_headers_stamps _ _ _ Hcols) as (stamps & -> & Hlen & _).
    rewrite Hcols. cbn [mbind result_bind].
    rewrite (frame_tail a stamps None Hwf ltac:(lia) Hnd). by eexists.
  - intros Hlast limit. rewrite (hdf5_to_dataframe_run env _ _ _ _ f a Hf Ha).
    destruct (column_headers _ _) as [e|cols] eqn:Hcols.
    + by apply column_headers_inl in Hcols as [-> _].
    + destruct Hlast. by eapply column_headers_inr_representable.
Qed.

(** X6. The cut to [limit >= 0] time steps: the keys stay, the first [limit]
    timestamp labels stay, and every row keeps its first [limit] values
    (all of them when [limit] is [C - 2] or more). *)
Theorem hdf5_to_dataframe_limit path var_name dt f a (limit : Z) :
  h5py_File env path = inr f →
  f !! default (default_var_name path) var_name = Some a →
  ndarray_wf a → 2 ≤ shape1 a →
  valid (default default_dt dt) →
  last_step_representable (default default_dt dt) (shape1 a) →
  (0 ≤ limit)%Z →
  ∃ cols,
    column_headers (shape1 a) (default default_dt dt) = inr cols
    ∧ hdf5_to_dataframe env path var_name (Some limit) dt
      = inr (mk_frame (omap (row_key 0 1) (arr_rows a))
               (take (Z.to_nat limit) (drop 2 cols))
               ((λ row, take (Z.to_nat limit) (drop 2 row)) <$> arr_rows a)).
Proof.
  intros Hf Ha Hwf HC Hv Hlast Hl.
  rewrite (hdf5_to_dataframe_run env _ _ _ _ f a Hf Ha).
  destruct (column_headers_total _ _ Hv Hlast) as [cols Hcols].
  pose proof (column_headers_NoDup _ _ _ Hv Hcols) as Hnd.
  destruct (column_headers_stamps _ _ _ Hcols) as (stamps & -> & Hlen & _).
  exists ("lng" :: "lat" :: stamps). split; [done|].
  rewrite Hcols. cbn [mbind result_bind].
  rewrite (frame_tail a stamps (Some limit) Hwf ltac:(lia) Hnd). cbv zeta.
  rewrite slice_len_nonneg by lia.
  rewrite decide_True by lia.
  change (drop 2 ("lng" :: "lat" :: stamps)) with stamps. do 2 f_equal.
  - destruct (Z_le_gt_dec limit (Z.of_nat (length stamps))).
    + f_equal. lia.
    + rewrite !take_ge; [done|lia..].
  - apply Forall_fmap_ext_1. eapply Forall_impl; [exact Hwf|]. simpl.
    intros row Hrow.
    destruct (Z_le_gt_dec limit (Z.of_nat (length stamps))).
    + f_equal. lia.
    + rewrite !take_ge; [done|rewrite length_drop; lia..].
Qed.

(** X7. A limit of -1 or -2 cuts a coordinate label away, and the index cannot
    be built. *)
Theorem hdf5_to_dataframe_limit_KeyError path var_name dt f a (limit : Z) :
  h5py_File env path = inr f →
  f !! default (default_var_name path) var_name = Some a →
  ndarray_wf a → 2 ≤ shape1 a →
  valid (default default_dt dt) →
  last_step_representable (default default_dt dt) (shape1 a) →
  (-2 ≤ limit < 0)%Z →
  hdf5_to_dataframe env path var_name (Some limit) dt = inl KeyError.
Proof.
  intros Hf Ha Hwf HC Hv Hlast Hl.
  rewrite (hdf5_to_dataframe_run env _ _ _ _ f a Hf Ha).
  destruct (column_headers_total _ _ Hv Hlast) as [cols Hcols].
  pose proof (column_headers_NoDup _ _ _ Hv Hcols) as Hnd.
  destruct (column_headers_stamps _ _ _ Hcols) as (stamps & -> & Hlen & _).
  rewrite Hcols. cbn [mbind result_bind].
  rewrite (frame_tail a stamps (Some limit) Hwf ltac:(lia) Hnd). cbv zeta.
  rewrite slice_len_nonneg by lia.
  by rewrite decide_False by lia.
Qed.

(** X8. A limit below -2 counts from the end: it cuts as the limit [C + limit]
    does. *)
Theorem hdf5_to_dataframe_limit_from_end path var_name dt f a (limit : Z) :
  h5py_File env path = inr f →
  f !! default (default_var_name path) var_name = Some a →
  2 ≤ shape1 a →
  (limit < -2)%Z → (0 ≤ Z.of_nat (shape1 a) + limit)%Z →
  hdf5_to_dataframe env path var_name (Some limit) dt
    = hdf5_to_dataframe env path var_name
        (Some (Z.of_nat (shape1 a) + limit)%Z) dt.
Proof.
  intros Hf Ha HC Hl1 Hl2.
  rewrite !(hdf5_to_dataframe_run env _ _ _ _ f a Hf Ha).
  destruct (column_headers _ _) as [e|cols] eqn:Hcols; [done|].
  destruct (column_headers_stamps _ _ _ Hcols) as (stamps & -> & Hlen & _).
  cbn [mbind result_bind].
  destruct (DataFrame_with_columns a _) as [e|df]; [done|].
  cbn [mbind result_bind]. unfold limit_and_index.
  rewrite !slice_to_take.
  rewrite slice_len_neg, slice_len_nonneg by lia.
  do 3 f_equal. simpl length. lia.
Qed.

End LoaderFacts.

(** ** The batch *)

Section BatchFacts.
Context {V : Type}.
Variable env : Env V.
Variable path : string.
Import Pandas.

Implicit Types (o : Out V) (ls : list string) (regex : option (string → bool)).

Lemma bulk_step_skipped regex var_name filename o :
  skipped regex filename = true →
  bulk_step env path regex var_name filename o = (o, inr var_name).
Proof. intros H. unfold bulk_step. by rewrite H. Qed.

Lemma bulk_step_unfiltered (matches : string → bool) var_name filename o :
  matches filename = true →
  bulk_step env path (Some matches) var_name filename o
    = bulk_step env path None var_name filename o.
Proof. intros H. unfold bulk_step, skipped. by rewrite H. Qed.

Lemma bulk_loop_prefilter (matches : string → bool) var_name ls o :
  bulk_loop env path (Some matches) var_name ls o
    = bulk_loop env path None var_name
        (filter (λ fn, matches fn = true) ls) o.
Proof.
  revert var_name o. induction ls as [|fn ls IH]; intros var_name o; [done|].
  rewrite filter_cons. destruct (decide (matches fn = true)) as [Hm|Hm].
  - cbn [bulk_loop]. unfold io_bind.
    rewrite bulk_step_unfiltered by done.
    destruct (bulk_step env path None var_name fn o) as [o' [e|v]]; [done|].
    apply IH.
  - cbn [bulk_loop]. unfold io_bind.
    rewrite bulk_step_skipped by (unfold skipped; by destruct (matches fn)).
    apply IH.
Qed.

(** X10. The pattern acts as a filter on the listing: the batch with a pattern
    is the batch without one in a directory that lists only the names the
    pattern lets through. *)
Theorem bulk_regex_is_prefilter (matches : string → bool) var_name o :
  bulk_hdf5_to_csv env path var_name (Some matches) o
    = bulk_hdf5_to_csv (with_filtered_listing env matches) path var_name None o.
Proof.
  rewrite !bulk_hdf5_to_csv_unfold. cbn [with_filtered_listing os_listdir].
  destruct (os_listdir env path) as [e|ls]; [done|]. cbn [fmap result_fmap].
  unfold io_bind. rewrite bulk_loop_prefilter.
  assert (∀ v ls' o', bulk_loop (with_filtered_listing env matches) path None v ls' o'
                      = bulk_loop env path None v ls' o') as Hsame.
  { clear. intros v ls'. revert v. induction ls' as [|fn ls' IH]; intros v o'; [done|].
    cbn [bulk_loop]. unfold io_bind.
    change (bulk_step (with_filtered_listing env matches) path None v fn o')
      with (bulk_step env path None v fn o').
    destruct (bulk_step env path None v fn o') as [o'' [e|v']]; [done|]. apply IH. }
  by rewrite Hsame.
Qed.

Lemma bulk_step_passable regex (v : string) filename o :
  skipped regex filename = false →
  passable env path v filename →
  bulk_step env path regex (Some v) filename o
    = (mk_out (stderr o ++ option_list (skip_line env path filename))
              (files o ++ option_list (csv_output env path v filename)),
       inr (Some v)).
Proof.
  intros Hskip Hpass. unfold bulk_step, skip_line, csv_output.
  rewrite Hskip. destruct Hpass as [->|(f & a & -> & Ha)].
  - unfold io_bind, stderr_write, io_ret. cbn. by rewrite app_nil_r.
  - rewrite Ha. unfold io_bind, DataFrame_to_csv, write_file, io_ret. cbn.
    by rewrite app_nil_r.
Qed.

Lemma bulk_step_not_passable regex (v : string) filename o :
  skipped regex filename = false →
  ¬ passable env path v filename →
  ∃ e, bulk_step env path regex (Some v) filename o = (o, inl e).
Proof.
  intros Hskip Hpass. unfold bulk_step. rewrite Hskip.
  destruct (h5py_File env (PyStr.path_join path filename)) as [e|f] eqn:Hopen.
  - destruct e; try (by eexists). destruct Hpass. by left.
  - destruct (f !! v) as [a|] eqn:Ha; [|by eexists].
    destruct Hpass. right. by exists f, a.
Qed.

Lemma bulk_loop_passable regex (v : string) ls o :
  Forall (λ fn, skipped regex fn = false → passable env path v fn) ls →
  bulk_loop env path regex (Some v) ls o
    = (mk_out
         (stderr o
          ++ omap (skip_line env path)
               (filter (λ fn, skipped regex fn = false) ls))
         (files o
          ++ omap (csv_output env path v)
               (filter (λ fn, skipped regex fn = false) ls)),
       inr (Some v)).
Proof.
  intros Hall. revert o. induction Hall as [|fn ls Hfn _ IH]; intros o.
  - cbn. by rewrite !app_nil_r; destruct o.
  - cbn [bulk_loop]. unfold io_bind. rewrite filter_cons.
    destruct (skipped regex fn) eqn:Hskip.
    + rewrite bulk_step_skipped by done. rewrite decide_False by done. apply IH.
    + rewrite bulk_step_passable by auto. rewrite decide_True by done.
      rewrite IH. cbn [stderr files omap list_omap].
      destruct (skip_line env path fn), (csv_output env path v fn);
        cbn [option_list]; by rewrite <- ?app_assoc, ?app_nil_r.
Qed.

Lemma bulk_loop_returns regex (v : string) ls o o' w :
  bulk_loop env path regex (Some v) ls o = (o', inr w) →
  Forall (λ fn, skipped regex fn = false → passable env path v fn) ls.
Proof.
  revert o. induction ls as [|fn ls IH]; intros o; [constructor|].
  cbn [bulk_loop]. unfold io_bind.
  destruct (bulk_step env path regex (Some v) fn o) as [o1 [e|v1]] eqn:Hstep;
    [done|].
  intros Hloop. pose proof Hstep as Hkeep.
  apply bulk_step_keeps_name in Hkeep as ->.
  constructor; [|by eapply IH].
  intros Hskip. destruct (h5py_File env (PyStr.path_join path fn)) as [e|f] eqn:Hopen.
  - unfold bulk_step in Hstep. rewrite Hskip, Hopen in Hstep.
    destruct e; try discriminate Hstep. left. exact Hopen.
  - unfold bulk_step in Hstep. rewrite Hskip, Hopen in Hstep.
    destruct (f !! v) as [a|] eqn:Ha; [|discriminate Hstep].
    right. by exists f, a.
Qed.

(** X11. The batch with a variable name ends without an exception exactly when
    every file that the pattern lets through either cannot be opened
    ([IOError]) or opens and holds the variable; it has then written one
    diagnostic line per file that could not be opened and one CSV per file
    that could, in the order of the listing. *)
Theorem bulk_normal_end regex (v : string) ls o :
  os_listdir env path = inr ls →
  ((∃ o', bulk_hdf5_to_csv env path (Some v) regex o = (o', inr ()))
   ↔ Forall (λ fn, skipped regex fn = false → passable env path v fn) ls)
  ∧ (Forall (λ fn, skipped regex fn = false → passable env path v fn) ls →
     bulk_hdf5_to_csv env path (Some v) regex o
       = (mk_out
            (stderr o
             ++ omap (skip_line env path)
                  (filter (λ fn, skipped regex fn = false) ls))
            (files o
             ++ omap (csv_output env path v)
                  (filter (λ fn, skipped regex fn = false) ls)),
          inr ())).
Proof.
  intros Hls. rewrite bulk_hdf5_to_csv_unfold, Hls. unfold io_bind.
  split; [split|].
  - intros [o' Hrun].
    destruct (bulk_loop env path regex (Some v) ls o) as [o1 [e|w]] eqn:Hloop;
      [done|]. by eapply bulk_loop_returns.
  - intros Hall. rewrite bulk_loop_passable by done. by eexists.
  - intros Hall. by rewrite bulk_loop_passable by done.
Qed.

End BatchFacts.

(** ** What the exporters keep *)

Section TransposeFacts.
Context {V : Type}.
Import Pandas.

Lemma omap_ext_in {A B} (f g : A → option B) (l : list A) :
  Forall (λ x, f x = g x) l → omap f l = omap g l.
Proof.
  induction 1 as [|x l Hx _ IH]; [done|].
  cbn [omap list_omap]. by rewrite Hx, IH.
Qed.

Lemma omap_fmap_compose {A B C} (f : B → option C) (g : A → B) (l : list A) :
  omap f (g <$> l) = omap (f ∘ g) l.
Proof. induction l as [|x l IH]; [done|]. cbn. by rewrite IH. Qed.

(** The columns of a frame, read across at row [k], give row [k] back. *)
Lemma column_of_columns {I C} (df : DataFrame I C V) (k : nat) (row : list V) :
  frame_wf df → values df !! k = Some row →
  column k ((λ j, column j (values df)) <$> seq 0 (length (columns df))) = row.
Proof.
  intros Hwf Hrow. unfold column at 1. rewrite omap_fmap_compose.
  assert (length row = length (columns df)) as Hlen.
  { destruct Hwf as [_ Hrows]. rewrite Forall_forall in Hrows.
    apply Hrows. by eapply list_elem_of_lookup_2. }
  rewrite (omap_ext_in _ (λ j, row !! j)).
  - rewrite <- Hlen. fold (take_positions (seq 0 (length row)) row).
    rewrite take_positions_prefix by done. by rewrite take_ge.
  - apply Forall_forall. intros j Hj%elem_of_seq. simpl.
    destruct (column_lookup df j k row Hwf ltac:(lia) Hrow) as (v & -> & ->).
    done.
Qed.

(** Transposing twice gives the frame back. *)
Lemma T_involutive {I C} (df : DataFrame I C V) :
  frame_wf df → T (T df) = df.
Proof.
  intros Hwf. destruct df as [idx cols rows]. unfold T at 1.
  cbn [index columns values T]. f_equal.
  pose proof Hwf as [Hlen _]. cbn [index values] in Hlen.
  apply list_eq. intros k. rewrite list_lookup_fmap.
  destruct (rows !! k) as [row|] eqn:Hrow.
  - rewrite lookup_seq_lt by (rewrite <- Hlen; by eapply lookup_lt_Some).
    cbn [fmap option_fmap option_map]. f_equal.
    by apply (column_of_columns (mk_frame idx cols rows)).
  - rewrite lookup_seq_ge; [done|]. rewrite <- Hlen. by apply lookup_ge_None.
Qed.

Lemma zip_with_eq_inv {A B C} (F : A → B → C) (l1 l2 : list A) (k1 k2 : list B) :
  (∀ a b a' b', F a b = F a' b' → a = a' ∧ b = b') →
  length l1 = length k1 → length l2 = length k2 →
  zip_with F l1 k1 = zip_with F l2 k2 → l1 = l2 ∧ k1 = k2.
Proof.
  intros HF. revert l2 k1 k2.
  induction l1 as [|a l1 IH]; intros [|a' l2] [|b k1] [|b' k2] H1 H2 Heq;
    try done.
  cbn [zip_with] in Heq. injection Heq as Hhd Htl.
  apply HF in Hhd as [-> ->].
  destruct (IH l2 k1 k2) as [-> ->]; [simpl in *; lia..|done|done].
Qed.

Lemma fmap_eq_inv {A B} (f : A → B) (l1 l2 : list A) :
  (∀ x y, f x = f y → x = y) → f <$> l1 = f <$> l2 → l1 = l2.
Proof.
  intros Hf. revert l2. induction l1 as [|x l1 IH]; intros [|y l2]; try done.
  intros [= Hxy Hl]. f_equal; [by apply Hf|by apply IH].
Qed.

(** The grid of a frame determines the frame. *)
Lemma csv_rows_inj (df1 df2 : DataFrame string (V * V) V) :
  frame_wf df1 → frame_wf df2 → csv_rows df1 = csv_rows df2 → df1 = df2.
Proof.
  intros [Hl1 _] [Hl2 _]. unfold csv_rows. intros [= Hcols Hdata].
  apply fmap_eq_inv in Hcols; [|by intros ?? [=]].
  apply zip_with_eq_inv in Hdata as [Hidx Hvals]; [| |done..].
  - destruct df1, df2. cbn in *. by subst.
  - intros i row i' row' [= -> Hrow].
    apply fmap_eq_inv in Hrow as ->; [done|by intros ?? [=]].
Qed.

(** The rows of a transpose, with their labels, determine a frame that has
    a column. *)
Lemma iterrows_T_inj {I C} (df1 df2 : DataFrame I C V) :
  frame_wf df1 → frame_wf df2 → columns df1 ≠ [] →
  iterrows (T df1) = iterrows (T df2) → df1 = df2.
Proof.
  intros Hwf1 Hwf2 Hne Heq.
  rewrite <- (T_involutive df1 Hwf1), <- (T_involutive df2 Hwf2). f_equal.
  pose proof (T_wf df1 Hwf1) as [Hl1 Hr1].
  pose proof (T_wf df2 Hwf2) as [Hl2 Hr2].
  unfold iterrows in Heq.
  apply zip_with_eq_inv in Heq as [Hidx Hser];
    [|by intros ???? [= -> ->]|by rewrite length_fmap..].
  assert (columns (T df1) = columns (T df2) ∧ values (T df1) = values (T df2))
    as [Hc Hv]; [|destruct (T df1), (T df2); cbn in *; by subst].
  assert (columns (T df1) = columns (T df2)) as Hc.
  { destruct (values (T df1)) as [|col1 vs1] eqn:Hv1.
    { cbn [T index length] in Hl1.
      destruct (columns df1); [done|discriminate Hl1]. }
    destruct (values (T df2)) as [|col2 vs2] eqn:Hv2; [done|].
    injection Hser as Hhd _.
    apply Forall_cons in Hr1 as [Hc1 _]. apply Forall_cons in Hr2 as [Hc2 _].
    apply zip_with_eq_inv in Hhd as [? _]; by intros ???? [= -> ->] || done. }
  split; [done|]. rewrite Hc in Hser. rewrite Hc in Hr1.
  revert Hser Hr1 Hr2. generalize (values (T df1)) (values (T df2)).
  intros vs1. induction vs1 as [|col1 vs1 IH];
    intros [|col2 vs2] Hser Hr1 Hr2; try done.
  injection Hser as Hhd Htl.
  apply Forall_cons in Hr1 as [Hc1 Hr1]. apply Forall_cons in Hr2 as [Hc2 Hr2].
  apply zip_with_eq_inv in Hhd as [_ ->]; [|by intros ???? [= -> ->]|done..].
  f_equal. by apply IH.
Qed.

End TransposeFacts.

Section ExportFacts.
Context {V : Type}.
Import Pandas.

Implicit Types (df : DataFrame (V * V) string V) (o : Out V).

Lemma last_written_app (name : string) (c : content V) written :
  last_written name (written ++ [(name, c)]) = Some c.
Proof.
  induction written as [|[n c'] written IH]; cbn [app last_written].
  - by rewrite decide_True.
  - by rewrite IH.
Qed.

Lemma write_file_inj (filename : string) (c1 c2 : content V) o :
  write_file filename c1 o = write_file filename c2 o → c1 = c2.
Proof.
  unfold write_file. intros Heq.
  apply (f_equal (λ r, files r.1)) in Heq. cbn [fst files] in Heq.
  apply app_inv_head in Heq. congruence.
Qed.

(** X12. [to_csv] loses nothing of a table: two tables that it writes alike
    are the same table. *)
Theorem to_csv_determines_table df1 df2 (filename : string) o :
  frame_wf df1 → frame_wf df2 →
  to_csv df1 filename o = to_csv df2 filename o → df1 = df2.
Proof.
  intros Hwf1 Hwf2. unfold to_csv, DataFrame_to_csv.
  intros Heq%write_file_inj.
  assert (csv_rows (T df1) = csv_rows (T df2)) as Hrows by congruence.
  clear Heq. rename Hrows into Heq.
  apply csv_rows_inj in Heq; [|by apply T_wf..].
  rewrite <- (T_involutive df1 Hwf1), <- (T_involutive df2 Hwf2).
  by rewrite Heq.
Qed.

(** X13. With at least one time step, the point JSON determines the table;
    with none, it is the empty array whatever the keys. *)
Theorem to_json_determines_table df1 df2 (filename : string) o :
  frame_wf df1 → frame_wf df2 →
  (columns df1 ≠ [] →
   to_json df1 filename o = to_json df2 filename o → df1 = df2)
  ∧ (columns df1 = [] →
     to_json df1 filename o
       = (mk_out (stderr o) (files o ++ [(filename, JsonFile (JArr []))]),
          inr ())).
Proof.
  intros Hwf1 Hwf2. split.
  - intros Hne. unfold to_json. intros Heq%write_file_inj.
    match type of Heq with
    | context [JArr (?F <$> iterrows (T df1))] =>
        assert (F <$> iterrows (T df1) = F <$> iterrows (T df2)) as Hrows
          by congruence
    end.
    clear Heq. rename Hrows into Heq.
    apply fmap_eq_inv in Heq; [by apply iterrows_T_inj|].
    intros [ts1 s1] [ts2 s2] [= -> Hs]. f_equal.
    apply fmap_eq_inv in Hs; [done|].
    intros [[x1 y1] v1] [[x2 y2] v2]. cbn. by intros [= -> -> ->].
  - intros Hnil. unfold to_json, write_file, iterrows, T.
    cbn [index columns values]. by rewrite Hnil.
Qed.

(** X14. The same for the GeoJSON: with at least one time step it determines
    the table; with none it is a collection without features. *)
Theorem to_geojson_determines_table df1 df2 (filename : string) o :
  frame_wf df1 → frame_wf df2 →
  (columns df1 ≠ [] →
   to_geojson df1 filename o = to_geojson df2 filename o → df1 = df2)
  ∧ (columns df1 = [] →
     to_geojson df1 filename o
       = (mk_out (stderr o)
            (files o ++ [(filename,
               JsonFile (JObj [("type", JStr "FeatureCollection");
                               ("features", JArr [])]))]),
          inr ())).
Proof.
  intros Hwf1 Hwf2. split.
  - intros Hne. unfold to_geojson. intros Heq%write_file_inj.
    match type of Heq with
    | context [JArr (?F <$> iterrows (T df1))] =>
        assert (F <$> iterrows (T df1) = F <$> iterrows (T df2)) as Hrows
          by congruence
    end.
    clear Heq. rename Hrows into Heq.
    apply fmap_eq_inv in Heq; [by apply iterrows_T_inj|].
    intros [ts1 s1] [ts2 s2] [= -> Hs]. f_equal.
    apply fmap_eq_inv in Hs; [done|].
    intros [[x1 y1] v1] [[x2 y2] v2]. cbn. by intros [= -> -> ->].
  - intros Hnil. unfold to_geojson, write_file, iterrows, T.
    cbn [index columns values]. by rewrite Hnil.
Qed.

(** X15. The two JSON exporters have the same default file name.  Called one
    after the other with their defaults, on any two tables, they write the
    same file, and it ends up holding what the second call wrote for its
    table and nothing of the first: after [to_json] then [to_geojson], the
    GeoJSON collection of the second table, one nested collection per
    timestamp with one Point per key carrying that key's value; after the
    opposite order, the point-JSON array of the second table.  In both
    orders the file is as the second call alone would have left it. *)
Theorem json_defaults_collide df1 df2 o :
  frame_wf df2 →
  (∃ features,
     last_written to_json_default
       (files ((to_json df1 to_json_default ;;io
                to_geojson df2 to_geojson_default) o).1)
       = Some (JsonFile (JObj [("type", JStr "FeatureCollection");
                               ("features", JArr features)]))
     ∧ last_written to_json_default
         (files ((to_json df1 to_json_default ;;io
                  to_geojson df2 to_geojson_default) o).1)
       = last_written to_geojson_default
           (files (to_geojson df2 to_geojson_default o).1)
     ∧ length features = length (columns df2)
     ∧ ∀ (t : nat) (timestamp : string),
         columns df2 !! t = Some timestamp →
         ∃ points,
           features !! t
             = Some (JObj [("type", JStr "FeatureCollection");
                           ("properties", JObj [("timestamp", JStr timestamp)]);
                           ("features", JArr points)])
           ∧ length points = length (index df2)
           ∧ ∀ (k : nat) (key : V * V) (row : list V),
               index df2 !! k = Some key →
               values df2 !! k = Some row →
               ∃ v, row !! t = Some v
                    ∧ points !! k = Some (point_feature key v))
  ∧ (∃ collection,
       last_written to_geojson_default
         (files ((to_geojson df1 to_geojson_default ;;io
                  to_json df2 to_json_default) o).1)
         = Some (JsonFile (JArr collection))
       ∧ last_written to_geojson_default
           (files ((to_geojson df1 to_geojson_default ;;io
                    to_json df2 to_json_default) o).1)
         = last_written to_json_default
             (files (to_json df2 to_json_default o).1)
       ∧ length collection = length (columns df2)
       ∧ ∀ (t : nat) (timestamp : string),
           columns df2 !! t = Some timestamp →
           ∃ records,
             collection !! t
               = Some (JObj [("timestamp", JStr timestamp);
                             ("features", JArr [JArr records])])
             ∧ length records = length (index df2)
             ∧ ∀ (k : nat) (key : V * V) (row : list V),
                 index df2 !! k = Some key →
                 values df2 !! k = Some row →
                 ∃ v, row !! t = Some v
                      ∧ records !! k = Some (point_record key v)).
Proof.
  intros Hwf. split.
  - eexists. split; [|split; [|split]].
    + unfold io_bind, to_json, to_geojson, write_file. cbn [fst files].
      apply last_written_app.
    + unfold io_bind, to_json, to_geojson, write_file. cbn [fst files].
      by rewrite !last_written_app.
    + rewrite length_fmap, (iterrows_length _ (T_wf _ Hwf)). done.
    + intros t timestamp Ht.
      assert (t < length (columns df2))%nat as Hlt
        by (by eapply lookup_lt_Some).
      eexists. split; [|split].
      * rewrite list_lookup_fmap, (iterrows_T_lookup _ _ _ Hwf Ht).
        reflexivity.
      * unfold iterkv.
        rewrite length_fmap, length_zip_with, column_length by done. lia.
      * intros k key row Hkey Hrow.
        destruct (column_lookup _ _ _ _ Hwf Hlt Hrow) as (v & Hv & Hcol).
        exists v. split; [done|].
        unfold iterkv. rewrite list_lookup_fmap, lookup_zip_with, Hkey. simpl.
        rewrite Hcol. done.
  - eexists. split; [|split; [|split]].
    + unfold io_bind, to_json, to_geojson, write_file. cbn [fst files].
      apply last_written_app.
    + unfold io_bind, to_json, to_geojson, write_file. cbn [fst files].
      by rewrite !last_written_app.
    + rewrite length_fmap, (iterrows_length _ (T_wf _ Hwf)). done.
    + intros t timestamp Ht.
      assert (t < length (columns df2))%nat as Hlt
        by (by eapply lookup_lt_Some).
      eexists. split; [|split].
      * rewrite list_lookup_fmap, (iterrows_T_lookup _ _ _ Hwf Ht).
        reflexivity.
      * unfold iterkv.
        rewrite length_fmap, length_zip_with, column_length by done. lia.
      * intros k key row Hkey Hrow.
        destruct (column_lookup _ _ _ _ Hwf Hlt Hrow) as (v & Hv & Hcol).
        exists v. split; [done|].
        unfold iterkv. rewrite list_lookup_fmap, lookup_zip_with, Hkey. simpl.
        rewrite Hcol. done.
Qed.

End ExportFacts.

(** ** From the container to the CSV *)

Section Pipeline.
Context {V : Type}.
Variable env : Env V.
Import Datetime Pandas.


End Pipeline.

(** ** The properties beyond the claims at concrete inputs *)

Section FurtherExamples.
Import Datetime Pandas.

Lemma default_var_name_siblings_witness :
  default_var_name ("Month_Uncert" +:+ "12" +:+ String "." "mat")
    = default_var_name "Month_Uncert".
Proof.
  apply (default_var_name_siblings "Month_Uncert" "12" "mat"); reflexivity.
Defined.

Lemma column_headers_NoDup_witness :
  NoDup ["lng"; "lat"; "2003-12-22 03:00:00"; "2003-12-22 06:00:00";
         "2003-12-22 09:00:00"].
Proof.
  apply (column_headers_NoDup 5 default_dt);
    [reflexivity | vm_compute; reflexivity].
Defined.

Lemma labels_keep_minutes_witness :
  ∃ t, "2003-12-22 06:00:00" = Datetime.str t
    ∧ minute t = minute default_dt ∧ second t = second default_dt
    ∧ microsecond t = microsecond default_dt
    ∧ hour t = ((hour default_dt + 3 * Z.of_nat 1) mod 24)%Z.
Proof.
  apply (labels_keep_minutes 5 default_dt
           ["lng"; "lat"; "2003-12-22 03:00:00"; "2003-12-22 06:00:00";
            "2003-12-22 09:00:00"] 1);
    [reflexivity | vm_compute; reflexivity | reflexivity].
Defined.

Lemma hdf5_to_dataframe_returns_witness :
  ((∃ df, hdf5_to_dataframe ex_env "flux.h5" None None None = inr df)
   ↔ last_step_representable (default default_dt None) (shape1 ex_matrix))
  ∧ (¬ last_step_representable (default default_dt None) (shape1 ex_matrix) →
     ∀ limit,
       hdf5_to_dataframe ex_env "flux.h5" None limit None = inl OverflowError).
Proof.
  apply (hdf5_to_dataframe_returns ex_env "flux.h5" None None
           ex_container ex_matrix);
    [ reflexivity | vm_compute; reflexivity | repeat constructor
    | simpl; lia | reflexivity ].
Defined.

(** An epoch so late that the second time step passes the year 9999: the
    loader ends with the overflow. *)
Example hdf5_to_dataframe_late_epoch :
  hdf5_to_dataframe ex_env "flux.h5" None None
    (Some (mk_datetime 9999 12 31 21 0 0 0)) = inl OverflowError.
Proof. vm_compute. reflexivity. Qed.

Lemma hdf5_to_dataframe_limit_witness :
  ∃ cols,
    column_headers (shape1 ex_matrix6) (default default_dt None) = inr cols
    ∧ hdf5_to_dataframe ex_env6 "grid.h5" None (Some 2%Z) None
      = inr (mk_frame (omap (row_key 0 1) (arr_rows ex_matrix6))
               (take (Z.to_nat 2) (drop 2 cols))
               ((λ row, take (Z.to_nat 2) (drop 2 row))
                  <$> arr_rows ex_matrix6)).
Proof.
  apply (hdf5_to_dataframe_limit ex_env6 "grid.h5" None None
           {[ "grid" := ex_matrix6 ]} ex_matrix6 2);
    [ reflexivity | vm_compute; reflexivity | repeat constructor
    | simpl; lia | reflexivity
    | intros _; eexists; vm_compute; reflexivity | lia ].
Defined.

(** The table cut to two of its four time steps. *)
Example hdf5_to_dataframe_limit_example :
  hdf5_to_dataframe ex_env6 "grid.h5" None (Some 2%Z) None
    = inr (mk_frame
             [((-166.5)%float, 65.5%float); ((-165.5)%float, 65.5%float)]
             ["2003-12-22 03:00:00"; "2003-12-22 06:00:00"]
             [[1.0%float; 2.0%float]; [5.0%float; 6.0%float]]).
Proof. vm_compute. reflexivity. Qed.

Lemma hdf5_to_dataframe_limit_KeyError_witness :
  hdf5_to_dataframe ex_env6 "grid.h5" None (Some (-1)%Z) None = inl KeyError.
Proof.
  apply (hdf5_to_dataframe_limit_KeyError ex_env6 "grid.h5" None None
           {[ "grid" := ex_matrix6 ]} ex_matrix6 (-1));
    [ reflexivity | vm_compute; reflexivity | repeat constructor
    | simpl; lia | reflexivity
    | intros _; eexists; vm_compute; reflexivity | lia ].
Defined.

Lemma hdf5_to_dataframe_limit_from_end_witness :
  hdf5_to_dataframe ex_env6 "grid.h5" None (Some (-3)%Z) None
    = hdf5_to_dataframe ex_env6 "grid.h5" None
        (Some (Z.of_nat (shape1 ex_matrix6) + -3)%Z) None.
Proof.
  apply (hdf5_to_dataframe_limit_from_end ex_env6 "grid.h5" None None
           {[ "grid" := ex_matrix6 ]} ex_matrix6 (-3));
    [ reflexivity | vm_compute; reflexivity | simpl; lia | lia | simpl; lia ].
Defined.

(** The limit -3 on four time steps keeps the first three. *)
Example hdf5_to_dataframe_limit_from_end_example :
  hdf5_to_dataframe ex_env6 "grid.h5" None (Some (-3)%Z) None
    = inr (mk_frame
             [((-166.5)%float, 65.5%float); ((-165.5)%float, 65.5%float)]
             ["2003-12-22 03:00:00"; "2003-12-22 06:00:00";
              "2003-12-22 09:00:00"]
             [[1.0%float; 2.0%float; 3.0%float];
              [5.0%float; 6.0%float; 7.0%float]]).
Proof. vm_compute. reflexivity. Qed.

Lemma hdf5_to_dataframe_wf_witness :
  frame_wf
    (mk_frame [((-166.5)%float, 65.5%float)]
       ["2003-12-22 03:00:00"; "2003-12-22 06:00:00"; "2003-12-22 09:00:00"]
       [[1.0%float; 2.0%float; 3.0%float]]).
Proof.
  apply (hdf5_to_dataframe_wf ex_env "flux.h5" None None None ex_container);
    [ reflexivity
    | intros v a Hva; unfold ex_container, container in Hva;
      apply lookup_singleton_Some in Hva as [_ <-]; repeat constructor
    | vm_compute; reflexivity ].
Defined.

Lemma bulk_normal_end_witness :
  ((∃ o', bulk_hdf5_to_csv ex_env_batch "batch" (Some "flux") (Some ex_regex)
            ex_out = (o', inr ()))
   ↔ Forall (λ fn, skipped (Some ex_regex) fn = false →
                   passable ex_env_batch "batch" "flux" fn)
        ["readme.txt"; "flux1.mat"; "flux2.mat"])
  ∧ (Forall (λ fn, skipped (Some ex_regex) fn = false →
                   passable ex_env_batch "batch" "flux" fn)
        ["readme.txt"; "flux1.mat"; "flux2.mat"] →
     bulk_hdf5_to_csv ex_env_batch "batch" (Some "flux") (Some ex_regex) ex_out
       = (mk_out
            (stderr ex_out
             ++ omap (skip_line ex_env_batch "batch")
                  (filter (λ fn, skipped (Some ex_regex) fn = false)
                     ["readme.txt"; "flux1.mat"; "flux2.mat"]))
            (files ex_out
             ++ omap (csv_output ex_env_batch "batch" "flux")
                  (filter (λ fn, skipped (Some ex_regex) fn = false)
                     ["readme.txt"; "flux1.mat"; "flux2.mat"])),
          inr ())).
Proof.
  apply (bulk_normal_end ex_env_batch "batch" (Some ex_regex) "flux"
           ["readme.txt"; "flux1.mat"; "flux2.mat"] ex_out).
  reflexivity.
Defined.

(** One container that cannot be opened and one good one: one diagnostic
    line, one CSV, no exception. *)
Example bulk_one_skip_one_csv :
  bulk_hdf5_to_csv ex_env_batch "batch" (Some "flux") (Some ex_regex) ex_out
    = (mk_out ["IOError encountered for batch" +:+ PyStr.newline]
         [("batch/flux2.csv",
           CsvFile (csv_rows (DataFrame_of_array ex_matrix)))],
       inr ()).
Proof. vm_compute. reflexivity. Qed.

Lemma to_csv_determines_table_witness : ex_frame = ex_frame.
Proof.
  apply (to_csv_determines_table ex_frame ex_frame "out.csv" ex_out);
    [ split; [reflexivity|repeat constructor]
    | split; [reflexivity|repeat constructor]
    | reflexivity ].
Defined.

Lemma to_json_determines_table_witness :
  (columns ex_frame ≠ [] →
   to_json ex_frame "out.json" ex_out = to_json ex_frame "out.json" ex_out →
   ex_frame = ex_frame)
  ∧ (columns ex_frame = [] →
     to_json ex_frame "out.json" ex_out
       = (mk_out (stderr ex_out)
            (files ex_out ++ [("out.json", JsonFile (JArr []))]),
          inr ())).
Proof.
  apply (to_json_determines_table ex_frame ex_frame "out.json" ex_out);
    (split; [reflexivity|repeat constructor]).
Defined.

Lemma to_geojson_determines_table_witness :
  (columns ex_frame ≠ [] →
   to_geojson ex_frame "out.json" ex_out
     = to_geojson ex_frame "out.json" ex_out →
   ex_frame = ex_frame)
  ∧ (columns ex_frame = [] →
     to_geojson ex_frame "out.json" ex_out
       = (mk_out (stderr ex_out)
            (files ex_out ++ [("out.json",
               JsonFile (JObj [("type", JStr "FeatureCollection");
                               ("features", JArr [])]))]),
          inr ())).
Proof.
  apply (to_geojson_determines_table ex_frame ex_frame "out.json" ex_out);
    (split; [reflexivity|repeat constructor]).
Defined.

(** Two tables with different keys and no time step: the same point
    JSON. *)
Example to_json_forgets_keys :
  to_json (mk_frame [((-166.5)%float, 65.5%float)] [] [[]]) "out.json" ex_out
    = to_json (mk_frame [((-165.5)%float, 65.5%float)] [] [[]]) "out.json"
        ex_out.
Proof. reflexivity. Qed.


(** [ex_frame_one] written as point JSON, then [ex_frame] as GeoJSON, both
    under the default name, and the opposite order: the file holds the
    three time steps and two grid cells of [ex_frame]. *)
Lemma json_defaults_collide_witness :
  (∃ features,
     last_written to_json_default
       (files ((to_json ex_frame_one to_json_default ;;io
                to_geojson ex_frame to_geojson_default) ex_out).1)
       = Some (JsonFile (JObj [("type", JStr "FeatureCollection");
                               ("features", JArr features)]))
     ∧ last_written to_json_default
         (files ((to_json ex_frame_one to_json_default ;;io
                  to_geojson ex_frame to_geojson_default) ex_out).1)
       = last_written to_geojson_default
           (files (to_geojson ex_frame to_geojson_default ex_out).1)
     ∧ length features = length (columns ex_frame)
     ∧ ∀ (t : nat) (timestamp : string),
         columns ex_frame !! t = Some timestamp →
         ∃ points,
           features !! t
             = Some (JObj [("type", JStr "FeatureCollection");
                           ("properties", JObj [("timestamp", JStr timestamp)]);
                           ("features", JArr points)])
           ∧ length points = length (index ex_frame)
           ∧ ∀ (k : nat) (key : float * float) (row : list float),
               index ex_frame !! k = Some key →
               values ex_frame !! k = Some row →
               ∃ v, row !! t = Some v
                    ∧ points !! k = Some (point_feature key v))
  ∧ (∃ collection,
       last_written to_geojson_default
         (files ((to_geojson ex_frame_one to_geojson_default ;;io
                  to_json ex_frame to_json_default) ex_out).1)
         = Some (JsonFile (JArr collection))
       ∧ last_written to_geojson_default
           (files ((to_geojson ex_frame_one to_geojson_default ;;io
                    to_json ex_frame to_json_default) ex_out).1)
         = last_written to_json_default
             (files (to_json ex_frame to_json_default ex_out).1)
       ∧ length collection = length (columns ex_frame)
       ∧ ∀ (t : nat) (timestamp : string),
           columns ex_frame !! t = Some timestamp →
           ∃ records,
             collection !! t
               = Some (JObj [("timestamp", JStr timestamp);
                             ("features", JArr [JArr records])])
             ∧ length records = length (index ex_frame)
             ∧ ∀ (k : nat) (key : float * float) (row : list float),
                 index ex_frame !! k = Some key →
                 values ex_frame !! k = Some row →
                 ∃ v, row !! t = Some v
                      ∧ records !! k = Some (point_record key v)).
Proof.
  apply (json_defaults_collide ex_frame_one ex_frame ex_out).
  split; [reflexivity|repeat constructor].
Defined.

(** The file after [to_json] then [to_geojson] with the defaults, in full:
    the first call's array is gone. *)
Example json_then_geojson_default :
  last_written to_json_default
    (files ((to_json ex_frame_one to_json_default ;;io
             to_geojson ex_frame_one to_geojson_default) ex_out).1)
    = Some (JsonFile
        (JObj [("type", JStr "FeatureCollection");
               ("features",
                JArr [JObj [("type", JStr "FeatureCollection");
                            ("properties",
                             JObj [("timestamp", JStr "2004-01-01 00:00:00")]);
                            ("features",
                             JArr [point_feature (10.5%float, 20.5%float)
                                     9.0%float])]])])).
Proof. vm_compute. reflexivity. Qed.

End FurtherExamples.
